(** * Verification of the claudeflare MCP server (claudeflare_mcp)

    A shallow embedding of the parts of [claudeflare_mcp/__init__.py] and
    [claudeflare_mcp/cf_handler.py] that the tool boundary, the auth
    resolver, the DNS update, the cache purge, the zone-settings
    projections, the worker lookup and the analytics aggregator consist of.

    Upstream calls (the Cloudflare SDK client and raw httpx requests) are
    modelled by an [Upstream] record of response functions; every handler
    runs in a small monad that records the trace of upstream calls it
    issues and may raise a Python exception. *)

From Stdlib Require Import Ascii String List ZArith Bool Lia.
Import ListNotations.
Open Scope string_scope.
Open Scope Z_scope.
Set Warnings "-register-all".

(** ** JSON values as produced by [response.json()] / held in Python dicts.
    JSON numbers are integers in this model. *)

Inductive json : Type :=
| JNull
| JBool (b : bool)
| JInt (z : Z)
| JStr (s : string)
| JList (l : list json)
| JObj (fields : list (string * json)).

(** [d.get(k)] on a dict: Python keeps the last binding of a duplicated
    JSON key, so the last occurrence wins. *)
Fixpoint obj_get (fs : list (string * json)) (k : string) : option json :=
  match fs with
  | [] => None
  | (k', v) :: rest =>
      match obj_get rest k with
      | Some w => Some w
      | None => if String.eqb k k' then Some v else None
      end
  end.

(** [d.get(k, default)] *)
Definition obj_get_default (fs : list (string * json)) (k : string) (d : json) : json :=
  match obj_get fs k with Some v => v | None => d end.

(** ** Python exceptions that reach the handlers and the tool boundary.
    Each carries its [str(exc)]. *)

Inductive exc : Type :=
| AuthenticationError (s : string)    (* cloudflare.AuthenticationError *)
| NotFoundError (s : string)          (* cloudflare.NotFoundError *)
| PermissionDeniedError (s : string)  (* cloudflare.PermissionDeniedError *)
| APIConnectionError (s : string)     (* cloudflare.APIConnectionError *)
| ValueError (s : string)
| TypeError (s : string)
| AttributeError (s : string)
| OtherError (s : string).            (* any other Exception, e.g. httpx errors *)

Definition exc_str (e : exc) : string :=
  match e with
  | AuthenticationError s | NotFoundError s | PermissionDeniedError s
  | APIConnectionError s | ValueError s | TypeError s | AttributeError s
  | OtherError s => s
  end.

Inductive outcome (A : Type) : Type :=
| Ok (a : A)
| Raise (e : exc).
Arguments Ok {A} a.
Arguments Raise {A} e.

(** ** Python built-ins used by the handlers, on strings and JSON values. *)

Class Builtins : Type := {
  py_strip : string -> string;                 (* str.strip() *)
  py_repr_container : json -> string;          (* str(x) on a list or dict *)
  py_int_of_str : string -> outcome Z          (* int(s) on a str *)
}.

(** [type(x).__name__] *)
Definition py_type_name (v : json) : string :=
  match v with
  | JNull => "NoneType" | JBool _ => "bool" | JInt _ => "int"
  | JStr _ => "str" | JList _ => "list" | JObj _ => "dict"
  end.

(** Decimal digits of a non-negative integer ([fuel] bounds the digit count). *)
Fixpoint digits_aux (fuel : nat) (n : Z) (acc : string) : string :=
  match fuel with
  | O => acc
  | S f =>
      let acc' := String (ascii_of_nat (48 + Z.to_nat (n mod 10))) acc in
      if n <? 10 then acc' else digits_aux f (n / 10) acc'
  end.

Definition z_to_string (z : Z) : string :=
  let fuel := S (Z.to_nat (Z.log2 (Z.abs z))) in
  if z <? 0 then "-" ++ digits_aux fuel (- z) "" else digits_aux fuel z "".

(** [str(x)] *)
Definition py_str `{Builtins} (v : json) : string :=
  match v with
  | JNull => "None"
  | JBool b => if b then "True" else "False"
  | JInt z => z_to_string z
  | JStr s => s
  | JList _ | JObj _ => py_repr_container v
  end.

(** ** Auth resolver: [_get_client] and [_get_auth_headers]
    (cf_handler.py, lines 85-105). The three strings are the module
    constants read from CF_API_TOKEN, CF_API_KEY and CF_API_EMAIL. *)

Record config : Type := mkConfig {
  cf_api_token : string;
  cf_api_key : string;
  cf_api_email : string
}.

(** Python truthiness of a [str]. *)
Definition truthy (s : string) : bool := negb (String.eqb s "").

Inductive client : Type :=
| TokenClient (api_token : string)                 (* AsyncCloudflare(api_token=...) *)
| KeyClient (api_email : string) (api_key : string). (* AsyncCloudflare(api_email=..., api_key=...) *)

Definition config_error_msg : string :=
  "需要设置 CF_API_TOKEN 或 CF_API_KEY + CF_API_EMAIL，请检查 MCP 配置的 env 字段".

Definition _get_client (c : config) : outcome client :=
  if truthy (cf_api_token c) then Ok (TokenClient (cf_api_token c))
  else if truthy (cf_api_key c) && truthy (cf_api_email c)
  then Ok (KeyClient (cf_api_email c) (cf_api_key c))
  else Raise (ValueError config_error_msg).

Definition headers := list (string * string).

Definition _get_auth_headers (c : config) : outcome headers :=
  if truthy (cf_api_token c) then Ok [("Authorization", "Bearer " ++ cf_api_token c)]
  else if truthy (cf_api_key c) && truthy (cf_api_email c)
  then Ok [("X-Auth-Email", cf_api_email c); ("X-Auth-Key", cf_api_key c)]
  else Raise (ValueError config_error_msg).

(** ** Upstream calls.

    SDK responses are records with the attributes the handlers read; raw
    httpx requests return the parsed JSON body (after
    [response.raise_for_status()] and [response.json()], either of which
    may raise). *)

Record dns_record : Type := mkDnsRecord {
  rec_id : string;
  rec_type : string;
  rec_name : string;
  rec_content : string;
  rec_ttl : Z;
  rec_proxied : option bool   (* the SDK's [proxied: Optional[bool]] *)
}.

Record email_routing : Type := mkEmailRouting {
  er_id : string;
  er_name : string;
  er_enabled : bool;
  er_status : string
}.

Record custom_hostname : Type := mkCustomHostname {
  ch_id : string;
  ch_hostname : string;
  ch_status : string
}.

(** The three keyword forms of [client.cache.purge]. *)
Inductive purge_request : Type :=
| PurgeEverything                  (* purge_everything=True *)
| PurgeFiles (files : list string) (* files=[...] *)
| PurgeTags (tags : list string).  (* tags=[...] *)

(** One upstream request, as recorded in the trace. *)
Inductive call : Type :=
| CallDnsRecordsGet (record_id zone_id : string)
| CallDnsRecordsEdit (record_id zone_id name type content : string)
    (ttl : Z) (proxied : option bool)
| CallCachePurge (zone_id : string) (req : purge_request)
| CallEmailRoutingGet (zone_id : string)
| CallCustomHostnamesList (zone_id : string)
| CallHttpGet (url : string) (hdrs : headers).

(** The upstream service: what each request answers, given the client
    (or the auth headers) it is sent with. *)
Record Upstream : Type := mkUpstream {
  up_dns_records_get : client -> string -> string -> outcome dns_record;
  up_dns_records_edit : client -> string -> string -> string -> string ->
                        string -> Z -> option bool -> outcome dns_record;
  up_cache_purge : client -> string -> purge_request -> outcome unit;
  up_email_routing_get : client -> string -> outcome email_routing;
  up_custom_hostnames_list : client -> string -> outcome (list custom_hostname);
  up_http_get : string -> headers -> outcome json
}.

(** ** The handler monad: a trace of upstream calls and Python exceptions. *)

Definition M (A : Type) : Type := list call -> outcome A * list call.

Definition ret {A} (a : A) : M A := fun tr => (Ok a, tr).

Definition bind {A B} (m : M A) (f : A -> M B) : M B :=
  fun tr =>
    match m tr with
    | (Ok a, tr') => f a tr'
    | (Raise e, tr') => (Raise e, tr')
    end.

Definition raise {A} (e : exc) : M A := fun tr => (Raise e, tr).

Definition lift {A} (o : outcome A) : M A := fun tr => (o, tr).

(** Send request [c]; the upstream answers [r]. *)
Definition issue {A} (c : call) (r : outcome A) : M A := fun tr => (r, (tr ++ [c])%list).

Notation "x <- m ;; k" := (bind m (fun x => k))
  (at level 61, m at next level, right associativity).

Definition run {A} (m : M A) : outcome A * list call := m [].

Definition bool_or_none (b : option bool) : json :=
  match b with Some b => JBool b | None => JNull end.

(** ** [CloudflareHandler.update_dns_record] (cf_handler.py, lines 181-213). *)

Definition dns_record_data (r : dns_record) : json :=
  JObj [("id", JStr (rec_id r)); ("type", JStr (rec_type r));
        ("name", JStr (rec_name r)); ("content", JStr (rec_content r));
        ("proxied", bool_or_none (rec_proxied r))].

Definition update_dns_record (u : Upstream) (c : config)
    (zone_id record_id content : string) (ttl : Z) (proxied : option bool) : M json :=
  cl <- lift (_get_client c) ;;
  existing <- issue (CallDnsRecordsGet record_id zone_id)
                    (up_dns_records_get u cl record_id zone_id) ;;
  let effective_proxied :=
    match proxied with Some p => Some p | None => rec_proxied existing end in
  record <- issue (CallDnsRecordsEdit record_id zone_id (rec_name existing)
                     (rec_type existing) content ttl effective_proxied)
                  (up_dns_records_edit u cl record_id zone_id (rec_name existing)
                     (rec_type existing) content ttl effective_proxied) ;;
  ret (dns_record_data record).

(** ** [CloudflareHandler.purge_cache] (cf_handler.py, lines 275-297). *)

(** [s.split(",")]: always at least one piece. *)
Fixpoint py_split_comma (s : string) : list string :=
  match s with
  | EmptyString => [""]
  | String ch rest =>
      let parts := py_split_comma rest in
      if Ascii.eqb ch ","%char then "" :: parts
      else match parts with
           | p :: ps => String ch p :: ps
           | [] => [String ch ""]
           end
  end.

Section Purge.
Context `{Builtins}.

(** [[f.strip() for f in s.split(",") if f.strip()]] *)
Definition split_strip (s : string) : list string :=
  filter truthy (map py_strip (py_split_comma s)).

Definition purge_error_msg : string :=
  "必须指定 purge_everything=True、files 或 tags 之一".

Definition purge_cache (u : Upstream) (c : config)
    (zone_id files tags : string) (purge_everything : bool) : M json :=
  cl <- lift (_get_client c) ;;
  _ <- (if purge_everything then
          issue (CallCachePurge zone_id PurgeEverything)
                (up_cache_purge u cl zone_id PurgeEverything)
        else if truthy files then
          let file_list := split_strip files in
          issue (CallCachePurge zone_id (PurgeFiles file_list))
                (up_cache_purge u cl zone_id (PurgeFiles file_list))
        else if truthy tags then
          let tag_list := split_strip tags in
          issue (CallCachePurge zone_id (PurgeTags tag_list))
                (up_cache_purge u cl zone_id (PurgeTags tag_list))
        else raise (ValueError purge_error_msg)) ;;
  ret (JObj [("purged", JBool true); ("zone_id", JStr zone_id)]).

End Purge.

(** ** Zone settings projections
    ([CloudflareHandler._get_zone_settings_filtered], cf_handler.py,
    lines 248-271, and the three allow-lists, lines 57-83). *)

Definition _CF_API_BASE : string := "https://api.cloudflare.com/client/v4".

Definition _CACHE_KEYS : list string :=
  ["cache_level"; "browser_cache_ttl"; "always_online"; "development_mode";
   "edge_cache_ttl"].

Definition _SPEED_KEYS : list string :=
  ["brotli"; "early_hints"; "h2_prioritization"; "minify"; "mirage"; "polish";
   "prefetch_preload"; "rocket_loader"; "http2"; "http3"].

Definition _SECURITY_KEYS : list string :=
  ["security_level"; "browser_check"; "challenge_ttl"; "hotlink_protection";
   "privacy_pass"; "waf"].

(** [x in keys] for a frozenset of str: the probe is hashed, so a list or a
    dict raises; no other non-str value equals a str. *)
Definition py_in_keys (keys : list string) (v : json) : outcome bool :=
  match v with
  | JStr s => Ok (existsb (String.eqb s) keys)
  | JList _ | JObj _ => Raise (TypeError ("unhashable type: '" ++ py_type_name v ++ "'"))
  | _ => Ok false
  end.

(** [d[k] = v]: an existing key keeps its position, a new one is appended. *)
Fixpoint dict_set (d : list (string * json)) (k : string) (v : json) : list (string * json) :=
  match d with
  | [] => [(k, v)]
  | (k', v') :: rest =>
      if String.eqb k k' then (k', v) :: rest else (k', v') :: dict_set rest k v
  end.

(** [dict(d).get(k)] on a dict built by [dict_set] *)
Fixpoint dict_lookup (d : list (string * json)) (k : string) : option json :=
  match d with
  | [] => None
  | (k', v) :: rest => if String.eqb k k' then Some v else dict_lookup rest k
  end.

Section Settings.
Context `{Builtins}.

(** The comprehension
    [{str(item["id"]): item["value"] for item in result
      if isinstance(item, dict) and item.get("id") in keys
      and item.get("value") is not None}], accumulated in [acc]. *)
Fixpoint settings_comprehension (keys : list string) (items : list json)
    (acc : list (string * json)) : outcome (list (string * json)) :=
  match items with
  | [] => Ok acc
  | JObj fs :: rest =>
      let id := obj_get_default fs "id" JNull in
      match py_in_keys keys id with
      | Raise e => Raise e
      | Ok false => settings_comprehension keys rest acc
      | Ok true =>
          match obj_get fs "value" with
          | None | Some JNull => settings_comprehension keys rest acc
          | Some v => settings_comprehension keys rest (dict_set acc (py_str id) v)
          end
      end
  | _ :: rest => settings_comprehension keys rest acc
  end.

Definition _get_zone_settings_filtered (u : Upstream) (c : config)
    (zone_id : string) (keys : list string) : M json :=
  hdrs <- lift (_get_auth_headers c) ;;
  let url := _CF_API_BASE ++ "/zones/" ++ zone_id ++ "/settings" in
  data <- issue (CallHttpGet url hdrs) (up_http_get u url hdrs) ;;
  match data with
  | JObj fs =>
      match obj_get_default fs "result" (JList []) with
      | JList result =>
          d <- lift (settings_comprehension keys result []) ;;
          ret (JObj d)
      | _ => ret (JObj [])
      end
  | _ => raise (AttributeError ("'" ++ py_type_name data ++ "' object has no attribute 'get'"))
  end.

Definition get_cache_settings u c zone_id := _get_zone_settings_filtered u c zone_id _CACHE_KEYS.
Definition get_speed_settings u c zone_id := _get_zone_settings_filtered u c zone_id _SPEED_KEYS.
Definition get_security_settings u c zone_id := _get_zone_settings_filtered u c zone_id _SECURITY_KEYS.

(** ** [CloudflareHandler.get_worker] (cf_handler.py, lines 641-667). *)

(** The first dict of the listing whose [script.get("id") == script_name]. *)
Fixpoint find_script (script_name : string) (items : list json)
    : option (list (string * json)) :=
  match items with
  | [] => None
  | JObj fs :: rest =>
      match obj_get fs "id" with
      | Some (JStr s) => if String.eqb s script_name then Some fs else find_script script_name rest
      | _ => find_script script_name rest
      end
  | _ :: rest => find_script script_name rest
  end.

Definition worker_not_found_msg (script_name : string) : string :=
  "Worker 脚本 " ++ script_name ++ " 不存在".

Definition get_worker (u : Upstream) (c : config) (account_id script_name : string) : M json :=
  hdrs <- lift (_get_auth_headers c) ;;
  let url := _CF_API_BASE ++ "/accounts/" ++ account_id ++ "/workers/scripts" in
  data <- issue (CallHttpGet url hdrs) (up_http_get u url hdrs) ;;
  match data with
  | JObj fs =>
      match obj_get_default fs "result" (JList []) with
      | JList result =>
          match find_script script_name result with
          | Some script =>
              ret (JObj [("id", JStr (py_str (obj_get_default script "id" (JStr ""))));
                         ("created_on", JStr (py_str (obj_get_default script "created_on" (JStr ""))));
                         ("modified_on", JStr (py_str (obj_get_default script "modified_on" (JStr ""))));
                         ("etag", JStr (py_str (obj_get_default script "etag" (JStr ""))))])
          | None => raise (ValueError (worker_not_found_msg script_name))
          end
      | _ => ret (JObj [])
      end
  | _ => raise (AttributeError ("'" ++ py_type_name data ++ "' object has no attribute 'get'"))
  end.

(** ** [CloudflareHandler._aggregate_analytics] (cf_handler.py, lines 534-557). *)

(** [int(x)] *)
Definition py_int (v : json) : outcome Z :=
  match v with
  | JInt z => Ok z
  | JBool b => Ok (if b then 1 else 0)
  | JStr s => py_int_of_str s
  | _ => Raise (TypeError ("int() argument must be a string, a bytes-like object or a real number, not '"
                           ++ py_type_name v ++ "'"))
  end.

Record totals : Type := mkTotals {
  t_req : Z; t_cached_req : Z; t_bw : Z; t_cached_bw : Z; t_threats : Z; t_pv : Z
}.

Definition zero_totals : totals := mkTotals 0 0 0 0 0 0.

Definition obind {A B} (o : outcome A) (f : A -> outcome B) : outcome B :=
  match o with Ok a => f a | Raise e => Raise e end.

Notation "x <-? o ;; k" := (obind o (fun x => k))
  (at level 61, o at next level, right associativity).

(** The six [+= int(s.get(k, 0))] of one bucket's [sum]. *)
Definition add_bucket (t : totals) (s : list (string * json)) : outcome totals :=
  r <-? py_int (obj_get_default s "requests" (JInt 0)) ;;
  cr <-? py_int (obj_get_default s "cachedRequests" (JInt 0)) ;;
  b <-? py_int (obj_get_default s "bytes" (JInt 0)) ;;
  cb <-? py_int (obj_get_default s "cachedBytes" (JInt 0)) ;;
  th <-? py_int (obj_get_default s "threats" (JInt 0)) ;;
  pv <-? py_int (obj_get_default s "pageViews" (JInt 0)) ;;
  Ok (mkTotals (t_req t + r) (t_cached_req t + cr) (t_bw t + b)
               (t_cached_bw t + cb) (t_threats t + th) (t_pv t + pv)).

Fixpoint aggregate_loop (groups : list json) (t : totals) : outcome totals :=
  match groups with
  | [] => Ok t
  | JObj g :: rest =>
      match obj_get_default g "sum" (JObj []) with
      | JObj s => t' <-? add_bucket t s ;; aggregate_loop rest t'
      | _ => aggregate_loop rest t
      end
  | _ :: rest => aggregate_loop rest t
  end.

Definition summary_json (t : totals) : json :=
  JObj [("requests", JObj [("total", JInt (t_req t)); ("cached", JInt (t_cached_req t));
                           ("uncached", JInt (t_req t - t_cached_req t))]);
        ("bandwidth", JObj [("total", JInt (t_bw t)); ("cached", JInt (t_cached_bw t));
                            ("uncached", JInt (t_bw t - t_cached_bw t))]);
        ("threats", JObj [("total", JInt (t_threats t))]);
        ("pageviews", JObj [("total", JInt (t_pv t))])].

Definition _aggregate_analytics (groups : list json) : outcome json :=
  t <-? aggregate_loop groups zero_totals ;; Ok (summary_json t).

End Settings.

(** ** [CloudflareHandler.get_email_routing] and
    [CloudflareHandler.list_custom_hostnames] (cf_handler.py, lines 391-439). *)

Definition get_email_routing (u : Upstream) (c : config) (zone_id : string) : M json :=
  cl <- lift (_get_client c) ;;
  routing <- issue (CallEmailRoutingGet zone_id) (up_email_routing_get u cl zone_id) ;;
  ret (JObj [("id", JStr (er_id routing)); ("name", JStr (er_name routing));
             ("enabled", JBool (er_enabled routing)); ("status", JStr (er_status routing))]).

Definition list_custom_hostnames (u : Upstream) (c : config) (zone_id : string) : M json :=
  cl <- lift (_get_client c) ;;
  page <- issue (CallCustomHostnamesList zone_id) (up_custom_hostnames_list u cl zone_id) ;;
  ret (JList (map (fun h => JObj [("id", JStr (ch_id h)); ("hostname", JStr (ch_hostname h));
                                  ("status", JStr (ch_status h))]) page)).

(** ** The tool boundary (claudeflare_mcp/__init__.py).

    Each tool builds a fresh [CloudflareHandler()], calls one handler
    method inside [try], and turns the result or the exception into a
    JSON envelope with [_success] / [_error] (lines 57-64). *)

Record envelope : Type := mkEnvelope {
  status : string;
  data : json;
  message : string
}.

Definition _success (d : json) : envelope := mkEnvelope "success" d "".
Definition _error (m : string) : envelope := mkEnvelope "error" JNull m.

(** The 27 tools, with their arguments. *)
Inductive tool_call : Type :=
| TListZones
| TListDnsRecords (zone_id : string)
| TCreateDnsRecord (zone_id record_type name content : string) (ttl : Z) (proxied : bool)
| TUpdateDnsRecord (zone_id record_id content : string) (ttl : Z) (proxied : option bool)
| TDeleteDnsRecord (zone_id record_id : string)
| TGetZoneSettings (zone_id : string)
| TPurgeCache (zone_id files tags : string) (purge_everything : bool)
| TGetCacheSettings (zone_id : string)
| TGetSpeedSettings (zone_id : string)
| TListFirewallRules (zone_id : string)
| TGetSecuritySettings (zone_id : string)
| TGetSslSettings (zone_id : string)
| TListSslCertificates (zone_id : string)
| TListCustomHostnames (zone_id : string)
| TCreateCustomHostname (zone_id hostname min_tls_version : string)
| TUpdateCustomHostname (zone_id custom_hostname_id min_tls_version : string)
| TDeleteCustomHostname (zone_id custom_hostname_id : string)
| TGetEmailRouting (zone_id : string)
| TListEmailRoutingRules (zone_id : string)
| TGetDnssec (zone_id : string)
| TGetDnsSettings (zone_id : string)
| TGetZoneAnalytics (zone_id : string)
| TListAiModels (account_id : string)
| TRunAi (account_id model_name prompt : string)
| TListWorkers (account_id : string)
| TListWorkerRoutes (zone_id : string)
| TGetWorker (account_id script_name : string).

(** One [except] clause before the final [except Exception as exc:
    return _error(str(exc))]. *)
Inductive except_clause : Type :=
| OnNotFound (msg : string)           (* except cloudflare.NotFoundError *)
| OnAuthentication (msg : string)     (* except cloudflare.AuthenticationError *)
| OnPermissionDenied (msg : string)   (* except cloudflare.PermissionDeniedError *)
| OnConnection (prefix : string).     (* except cloudflare.APIConnectionError as exc:
                                         _error(f"{prefix}{exc}") *)

Definition clause_applies (cl : except_clause) (e : exc) : option string :=
  match cl, e with
  | OnNotFound m, NotFoundError _ => Some m
  | OnAuthentication m, AuthenticationError _ => Some m
  | OnPermissionDenied m, PermissionDeniedError _ => Some m
  | OnConnection p, APIConnectionError s => Some (p ++ s)
  | _, _ => None
  end.

(** The first matching clause, else [str(exc)]. *)
Fixpoint handle (cls : list except_clause) (e : exc) : string :=
  match cls with
  | [] => exc_str e
  | cl :: rest =>
      match clause_applies cl e with
      | Some m => m
      | None => handle rest e
      end
  end.

Definition token_invalid_long : string := "CF_API_TOKEN 无效，请检查 Token 是否正确".
Definition token_invalid : string := "CF_API_TOKEN 无效".
Definition connect_failed : string := "连接 Cloudflare API 失败: ".
Definition zone_not_found (zone_id : string) : string := "Zone " ++ zone_id ++ " 不存在".
Definition record_not_found (record_id : string) : string := "DNS 记录 " ++ record_id ++ " 不存在".
Definition hostname_not_found (hid : string) : string := "Custom hostname " ++ hid ++ " 不存在".
Definition purge_denied : string := "无权限清除缓存，请检查 API Token 的 Cache Purge 权限".

(** The except-chain of each tool, in source order. *)
Definition tool_clauses (t : tool_call) : list except_clause :=
  match t with
  | TListZones => [OnAuthentication token_invalid_long; OnConnection connect_failed]
  | TListDnsRecords z => [OnNotFound (zone_not_found z); OnAuthentication token_invalid]
  | TCreateDnsRecord z _ _ _ _ _ => [OnNotFound (zone_not_found z); OnAuthentication token_invalid]
  | TUpdateDnsRecord _ r _ _ _ => [OnNotFound (record_not_found r); OnAuthentication token_invalid]
  | TDeleteDnsRecord _ r => [OnNotFound (record_not_found r)]
  | TGetZoneSettings z => [OnNotFound (zone_not_found z)]
  | TPurgeCache z _ _ _ =>
      [OnNotFound (zone_not_found z); OnPermissionDenied purge_denied;
       OnAuthentication token_invalid]
  | TGetCacheSettings z => [OnNotFound (zone_not_found z)]
  | TGetSpeedSettings z => [OnNotFound (zone_not_found z)]
  | TListFirewallRules z => [OnNotFound (zone_not_found z); OnAuthentication token_invalid]
  | TGetSecuritySettings z => [OnNotFound (zone_not_found z)]
  | TGetSslSettings z => [OnNotFound (zone_not_found z); OnAuthentication token_invalid]
  | TListSslCertificates z => [OnNotFound (zone_not_found z); OnAuthentication token_invalid]
  | TListCustomHostnames z => [OnNotFound (zone_not_found z); OnAuthentication token_invalid]
  | TCreateCustomHostname z _ _ => [OnNotFound (zone_not_found z); OnAuthentication token_invalid]
  | TUpdateCustomHostname _ h _ => [OnNotFound (hostname_not_found h)]
  | TDeleteCustomHostname _ h => [OnNotFound (hostname_not_found h)]
  | TGetEmailRouting z => [OnNotFound (zone_not_found z); OnAuthentication token_invalid]
  | TListEmailRoutingRules z => [OnNotFound (zone_not_found z); OnAuthentication token_invalid]
  | TGetDnssec z => [OnNotFound (zone_not_found z); OnAuthentication token_invalid]
  | TGetDnsSettings z => [OnNotFound (zone_not_found z); OnAuthentication token_invalid]
  | TGetZoneAnalytics z => [OnNotFound (zone_not_found z)]
  | TListAiModels _ => [OnAuthentication token_invalid; OnConnection connect_failed]
  | TRunAi _ _ _ => [OnAuthentication token_invalid; OnConnection connect_failed]
  | TListWorkers _ => [OnAuthentication token_invalid; OnConnection connect_failed]
  | TListWorkerRoutes z => [OnNotFound (zone_not_found z); OnAuthentication token_invalid]
  | TGetWorker _ n => [OnNotFound (worker_not_found_msg n); OnAuthentication token_invalid]
  end.

(** What [_success] is given: the handler's result, except for the two
    delete tools, which build their own payload. *)
Definition tool_success_data (t : tool_call) (result : json) : json :=
  match t with
  | TDeleteDnsRecord _ rid => JObj [("deleted", JBool true); ("record_id", JStr rid)]
  | TDeleteCustomHostname _ hid => JObj [("deleted", result); ("custom_hostname_id", JStr hid)]
  | _ => result
  end.

(** The body of a tool's [try]/[except], given what the handler call did. *)
Definition tool_envelope (t : tool_call) (r : outcome json) : envelope :=
  match r with
  | Ok d => _success (tool_success_data t d)
  | Raise e => _error (handle (tool_clauses t) e)
  end.

(** *** Calling a method of [CloudflareHandler].

    [CloudflareHandler] (cf_handler.py, line 50) has no base class other
    than [object]: the mixins of cf_handler_*.py are not among its bases.
    Its methods, with the number of required and optional parameters
    after [self]: *)

Definition handler_methods : list (string * (nat * nat)) :=
  [("_get_client", (0, 0)%nat); ("_get_auth_headers", (0, 0)%nat);
   ("list_zones", (0, 0)%nat); ("list_dns_records", (1, 0)%nat);
   ("create_dns_record", (4, 2)%nat); ("update_dns_record", (3, 2)%nat);
   ("delete_dns_record", (2, 0)%nat); ("get_zone_settings", (1, 0)%nat);
   ("_get_zone_settings_filtered", (2, 0)%nat); ("purge_cache", (1, 3)%nat);
   ("get_cache_settings", (1, 0)%nat); ("get_speed_settings", (1, 0)%nat);
   ("list_firewall_rules", (1, 0)%nat); ("get_security_settings", (1, 0)%nat);
   ("get_ssl_settings", (1, 0)%nat); ("list_ssl_certificates", (1, 0)%nat);
   ("list_custom_hostnames", (1, 0)%nat); ("create_custom_hostname", (2, 0)%nat);
   ("get_email_routing", (1, 0)%nat); ("list_email_routing_rules", (1, 0)%nat);
   ("get_dnssec", (1, 0)%nat); ("get_dns_settings", (1, 0)%nat);
   ("get_zone_analytics", (1, 0)%nat); ("_aggregate_analytics", (1, 0)%nat);
   ("list_ai_models", (1, 0)%nat); ("run_ai", (3, 0)%nat);
   ("list_workers", (1, 0)%nat); ("list_worker_routes", (1, 0)%nat);
   ("get_worker", (2, 0)%nat)].

Fixpoint assoc {A} (k : string) (l : list (string * A)) : option A :=
  match l with
  | [] => None
  | (k', a) :: rest => if String.eqb k k' then Some a else assoc k rest
  end.

Definition nat_to_string (n : nat) : string := z_to_string (Z.of_nat n).

(** [TypeError] text of a call with the wrong number of positional
    arguments ([self] counted, as Python does). *)
Definition arity_error_msg (cls name : string) (req opt nargs : nat) : string :=
  if (nargs <? req)%nat then
    cls ++ "." ++ name ++ "() missing " ++ nat_to_string (req - nargs) ++
    " required positional argument(s)"
  else if (opt =? 0)%nat then
    cls ++ "." ++ name ++ "() takes " ++ nat_to_string (S req) ++
    " positional arguments but " ++ nat_to_string (S nargs) ++ " were given"
  else
    cls ++ "." ++ name ++ "() takes from " ++ nat_to_string (S req) ++ " to " ++
    nat_to_string (S (req + opt)) ++ " positional arguments but " ++
    nat_to_string (S nargs) ++ " were given".

(** [obj.name(a1, ..., an)]: attribute lookup, then argument binding, then
    the method's own behaviour [body]. *)
Definition py_method_call (cls : string) (methods : list (string * (nat * nat)))
    (name : string) (nargs : nat) (body : outcome json) : outcome json :=
  match assoc name methods with
  | None => Raise (AttributeError ("'" ++ cls ++ "' object has no attribute '" ++ name ++ "'"))
  | Some (req, opt) =>
      if (req <=? nargs)%nat && (nargs <=? req + opt)%nat then body
      else Raise (TypeError (arity_error_msg cls name req opt nargs))
  end.

(** The method each tool calls and how many positional arguments it passes. *)
Definition tool_method (t : tool_call) : string * nat :=
  match t with
  | TListZones => ("list_zones", 0%nat)
  | TListDnsRecords _ => ("list_dns_records", 1%nat)
  | TCreateDnsRecord _ _ _ _ _ _ => ("create_dns_record", 6%nat)
  | TUpdateDnsRecord _ _ _ _ _ => ("update_dns_record", 5%nat)
  | TDeleteDnsRecord _ _ => ("delete_dns_record", 2%nat)
  | TGetZoneSettings _ => ("get_zone_settings", 1%nat)
  | TPurgeCache _ _ _ _ => ("purge_cache", 4%nat)
  | TGetCacheSettings _ => ("get_cache_settings", 1%nat)
  | TGetSpeedSettings _ => ("get_speed_settings", 1%nat)
  | TListFirewallRules _ => ("list_firewall_rules", 1%nat)
  | TGetSecuritySettings _ => ("get_security_settings", 1%nat)
  | TGetSslSettings _ => ("get_ssl_settings", 1%nat)
  | TListSslCertificates _ => ("list_ssl_certificates", 1%nat)
  | TListCustomHostnames _ => ("list_custom_hostnames", 1%nat)
  | TCreateCustomHostname _ _ _ => ("create_custom_hostname", 3%nat)
  | TUpdateCustomHostname _ _ _ => ("update_custom_hostname", 3%nat)
  | TDeleteCustomHostname _ _ => ("delete_custom_hostname", 2%nat)
  | TGetEmailRouting _ => ("get_email_routing", 1%nat)
  | TListEmailRoutingRules _ => ("list_email_routing_rules", 1%nat)
  | TGetDnssec _ => ("get_dnssec", 1%nat)
  | TGetDnsSettings _ => ("get_dns_settings", 1%nat)
  | TGetZoneAnalytics _ => ("get_zone_analytics", 1%nat)
  | TListAiModels _ => ("list_ai_models", 1%nat)
  | TRunAi _ _ _ => ("run_ai", 3%nat)
  | TListWorkers _ => ("list_workers", 1%nat)
  | TListWorkerRoutes _ => ("list_worker_routes", 1%nat)
  | TGetWorker _ _ => ("get_worker", 2%nat)
  end.

(** A tool invocation: [body] is what the handler method does once its
    arguments are bound (its result or the exception it raises). *)
Definition invoke_tool (t : tool_call) (body : outcome json) : envelope :=
  tool_envelope t
    (py_method_call "CloudflareHandler" handler_methods
       (fst (tool_method t)) (snd (tool_method t)) body).

(** ** An instance of the built-ins on ASCII text, for concrete runs.
    [str.isspace()] on ASCII: tab, LF, VT, FF, CR, the separators
    0x1c-0x1f and space. Only the ASCII range is covered: Python's
    [str.strip()] also removes non-ASCII whitespace (U+0085, U+00A0,
    U+3000, ...), which this instance does not model. *)

Definition py_isspace (ch : ascii) : bool :=
  let n := nat_of_ascii ch in
  ((9 <=? n)%nat && (n <=? 13)%nat) || ((28 <=? n)%nat && (n <=? 32)%nat).

Fixpoint lstrip (s : string) : string :=
  match s with
  | EmptyString => EmptyString
  | String ch rest => if py_isspace ch then lstrip rest else s
  end.

Definition rstrip (s : string) : string :=
  string_of_list_ascii (rev (list_ascii_of_string (lstrip
    (string_of_list_ascii (rev (list_ascii_of_string s)))))).

Definition ascii_strip (s : string) : string := rstrip (lstrip s).

Definition digit_value (ch : ascii) : option Z :=
  let n := nat_of_ascii ch in
  if (48 <=? n)%nat && (n <=? 57)%nat then Some (Z.of_nat (n - 48)) else None.

(** Decimal digits with single underscores between them, as [int()]
    accepts them; [prev_digit] says the previous character was a digit. *)
Fixpoint parse_digits (s : string) (acc : Z) (prev_digit : bool) : option Z :=
  match s with
  | EmptyString => if prev_digit then Some acc else None
  | String ch rest =>
      match digit_value ch with
      | Some d => parse_digits rest (acc * 10 + d) true
      | None =>
          if Ascii.eqb ch "_"%char && prev_digit
          then match rest with
               | String ch' _ => if digit_value ch' then parse_digits rest acc false else None
               | EmptyString => None
               end
          else None
      end
  end.

Definition ascii_int_of_str (s : string) : outcome Z :=
  let err := Raise (ValueError ("invalid literal for int() with base 10: '" ++ s ++ "'")) in
  match ascii_strip s with
  | String "-"%char rest =>
      match parse_digits rest 0 false with Some z => Ok (- z) | None => err end
  | String "+"%char rest =>
      match parse_digits rest 0 false with Some z => Ok z | None => err end
  | t => match parse_digits t 0 false with Some z => Ok z | None => err end
  end.

(** [repr] of a list or dict (strings quoted, without escapes). *)
Fixpoint ascii_repr (v : json) : string :=
  match v with
  | JNull => "None"
  | JBool b => if b then "True" else "False"
  | JInt z => z_to_string z
  | JStr s => "'" ++ s ++ "'"
  | JList l =>
      "[" ++ (fix go (l : list json) : string :=
                match l with
                | [] => ""
                | [x] => ascii_repr x
                | x :: r => ascii_repr x ++ ", " ++ go r
                end) l ++ "]"
  | JObj fs =>
      "{" ++ (fix go (fs : list (string * json)) : string :=
                match fs with
                | [] => ""
                | [(k, x)] => "'" ++ k ++ "': " ++ ascii_repr x
                | (k, x) :: r => "'" ++ k ++ "': " ++ ascii_repr x ++ ", " ++ go r
                end) fs ++ "}"
  end.

#[export] Instance ascii_builtins : Builtins := {
  py_strip := ascii_strip;
  py_repr_container := ascii_repr;
  py_int_of_str := ascii_int_of_str
}.

(** ** Statements of the claims' properties, written from the claims *)

(** The value of the last setting with id [k] whose value is present and not
    null (later duplicates override earlier ones). *)
Fixpoint last_setting_value (k : string) (items : list json) : option json :=
  match items with
  | [] => None
  | it :: rest =>
      match last_setting_value k rest with
      | Some v => Some v
      | None =>
          match it with
          | JObj fs =>
              match obj_get fs "id", obj_get fs "value" with
              | Some (JStr i), Some v =>
                  if String.eqb i k then
                    match v with JNull => None | _ => Some v end
                  else None
              | _, _ => None
              end
          | _ => None
          end
      end
  end.

(** An item's [id] can be hashed (it is not a JSON array or object). *)
Definition hashable_id (it : json) : Prop :=
  match it with
  | JObj fs =>
      match obj_get fs "id" with
      | Some (JList _) | Some (JObj _) => False
      | _ => True
      end
  | _ => True
  end.

(** The six counters of an hourly bucket's [sum]. *)
Definition analytics_counters : list string :=
  ["requests"; "cachedRequests"; "bytes"; "cachedBytes"; "threats"; "pageViews"].

(** The [sum] mappings of the well-formed buckets: the entries that are
    mappings holding a mapping under "sum". *)
Fixpoint well_formed_sums (groups : list json) : list (list (string * json)) :=
  match groups with
  | [] => []
  | JObj g :: rest =>
      match obj_get g "sum" with
      | Some (JObj s) => s :: well_formed_sums rest
      | _ => well_formed_sums rest
      end
  | _ :: rest => well_formed_sums rest
  end.

(** A counter that is absent or an integer (a JSON [true]/[false] is a
    Python int). *)
Definition counter_is_int (s : list (string * json)) (k : string) : Prop :=
  match obj_get s k with
  | None | Some (JInt _) | Some (JBool _) => True
  | _ => False
  end.

Definition counter_value (s : list (string * json)) (k : string) : Z :=
  match obj_get s k with
  | Some (JInt z) => z
  | Some (JBool true) => 1
  | _ => 0
  end.

(** The sum of counter [k] over the well-formed buckets. *)
Definition counter_total (groups : list json) (k : string) : Z :=
  fold_right Z.add 0 (map (fun s => counter_value s k) (well_formed_sums groups)).

(** ** Concrete inputs for runs of the model *)

Definition token_config : config := mkConfig "tok-123" "" "".
Definition key_config : config := mkConfig "" "global-key" "ops@example.com".
Definition both_config : config := mkConfig "tok-123" "global-key" "ops@example.com".
Definition empty_config : config := mkConfig "" "" "".

Definition www_record : dns_record :=
  mkDnsRecord "rec-1" "A" "www.example.com" "1.2.3.4" 300 (Some true).

(** An upstream that serves [www_record], accepts every edit and purge,
    answers the zone-settings, script-listing and other HTTP requests with
    [http_body], and has neither email routing nor custom hostnames
    provisioned (the API's 1550-style errors). *)
Definition sample_upstream (http_body : json) : Upstream := {|
  up_dns_records_get := fun _ rid _ =>
    if String.eqb rid "rec-1" then Ok www_record else Raise (NotFoundError "Not found");
  up_dns_records_edit := fun _ rid _ name type content ttl proxied =>
    Ok (mkDnsRecord rid type name content ttl proxied);
  up_cache_purge := fun _ _ _ => Ok tt;
  up_email_routing_get := fun _ _ =>
    Raise (OtherError "Error code: 400 - email routing is not enabled for this zone");
  up_custom_hostnames_list := fun _ _ =>
    Raise (OtherError "Error code: 403 - {'code': 1550, 'message': 'SaaS is not enabled'}");
  up_http_get := fun _ _ => Ok http_body
|}.

Definition settings_body : json :=
  JObj [("result", JList [JObj [("id", JStr "cache_level"); ("value", JStr "aggressive")];
                          JObj [("id", JStr "ssl"); ("value", JStr "full")]])].

Definition scripts_body : json :=
  JObj [("result", JList [JObj [("id", JStr "my-worker"); ("etag", JStr "e1")];
                          JObj [("id", JStr "api-worker"); ("etag", JStr "e2")]])].

(** * Further handlers (cf_handler.py and the mixins of cf_handler_*.py) *)

(** ** The settings and DNS-settings readers and the Workers AI model list
    (cf_handler.py, lines 224-246, 475-495 and 561-584); all three are
    plain httpx GETs. *)

Section MoreReaders.
Context `{Builtins}.

(** The comprehension of [get_zone_settings]:
    [{str(item["id"]): item["value"] for item in result
      if isinstance(item, dict) and "id" in item
      and item.get("value") is not None}].
    [str] of a JSON value does not raise, so neither does this one. *)
Fixpoint all_settings_comprehension (items : list json) (acc : list (string * json))
    : list (string * json) :=
  match items with
  | [] => acc
  | JObj fs :: rest =>
      match obj_get fs "id" with
      | None => all_settings_comprehension rest acc
      | Some id =>
          match obj_get fs "value" with
          | None | Some JNull => all_settings_comprehension rest acc
          | Some v => all_settings_comprehension rest (dict_set acc (py_str id) v)
          end
      end
  | _ :: rest => all_settings_comprehension rest acc
  end.

Definition get_zone_settings (u : Upstream) (c : config) (zone_id : string) : M json :=
  hdrs <- lift (_get_auth_headers c) ;;
  let url := _CF_API_BASE ++ "/zones/" ++ zone_id ++ "/settings" in
  data <- issue (CallHttpGet url hdrs) (up_http_get u url hdrs) ;;
  match data with
  | JObj fs =>
      match obj_get_default fs "result" (JList []) with
      | JList result => ret (JObj (all_settings_comprehension result []))
      | _ => ret (JObj [])
      end
  | _ => raise (AttributeError ("'" ++ py_type_name data ++ "' object has no attribute 'get'"))
  end.

Definition get_dns_settings (u : Upstream) (c : config) (zone_id : string) : M json :=
  hdrs <- lift (_get_auth_headers c) ;;
  let url := _CF_API_BASE ++ "/zones/" ++ zone_id ++ "/dns_settings" in
  data <- issue (CallHttpGet url hdrs) (up_http_get u url hdrs) ;;
  match data with
  | JObj fs =>
      match obj_get_default fs "result" (JObj []) with
      | JObj result => ret (JObj result)
      | _ => ret (JObj [])
      end
  | _ => raise (AttributeError ("'" ++ py_type_name data ++ "' object has no attribute 'get'"))
  end.

(** One entry of [list_ai_models]:
    [{"id": str(m.get("id", "")), "name": str(m.get("name", "")),
      "task": m.get("task", {})}]. *)
Definition ai_model_entry (m : list (string * json)) : json :=
  JObj [("id", JStr (py_str (obj_get_default m "id" (JStr ""))));
        ("name", JStr (py_str (obj_get_default m "name" (JStr ""))));
        ("task", obj_get_default m "task" (JObj []))].

(** [[... for m in result if isinstance(m, dict)]] *)
Fixpoint ai_models_comprehension (result : list json) : list json :=
  match result with
  | [] => []
  | JObj m :: rest => ai_model_entry m :: ai_models_comprehension rest
  | _ :: rest => ai_models_comprehension rest
  end.

Definition list_ai_models (u : Upstream) (c : config) (account_id : string) : M json :=
  hdrs <- lift (_get_auth_headers c) ;;
  let url := _CF_API_BASE ++ "/accounts/" ++ account_id ++ "/ai/models/search" in
  data <- issue (CallHttpGet url hdrs) (up_http_get u url hdrs) ;;
  match data with
  | JObj fs =>
      match obj_get_default fs "result" (JList []) with
      | JList result => ret (JList (ai_models_comprehension result))
      | _ => ret (JList [])
      end
  | _ => raise (AttributeError ("'" ++ py_type_name data ++ "' object has no attribute 'get'"))
  end.

End MoreReaders.

(** ** Requests the trace vocabulary [call] has no word for: httpx POSTs
    and the SDK's write operations. *)

Inductive xcall : Type :=
| XHttpPost (url : string) (hdrs : headers) (body : json)
| XDnsRecordsCreate (zone_id type name content : string) (ttl : Z) (proxied : bool)
| XDnsRecordsDelete (record_id zone_id : string)
| XCustomHostnamesCreate (zone_id hostname : string) (ssl : json)
| XCustomHostnamesEdit (custom_hostname_id zone_id : string) (ssl : json)
| XCustomHostnamesDelete (custom_hostname_id zone_id : string).

Record XUpstream : Type := mkXUpstream {
  xu_http_post : string -> headers -> json -> outcome json;
  xu_dns_records_create : client -> string -> string -> string -> string -> Z -> bool ->
                          outcome dns_record;
  xu_dns_records_delete : client -> string -> string -> outcome unit;
  xu_custom_hostnames_create : client -> string -> string -> json -> outcome custom_hostname;
  xu_custom_hostnames_edit : client -> string -> string -> json -> outcome custom_hostname;
  xu_custom_hostnames_delete : client -> string -> string -> outcome unit
}.

(** The same trace-and-exception monad over [xcall]. *)
Definition MX (A : Type) : Type := list xcall -> outcome A * list xcall.

Definition xret {A} (a : A) : MX A := fun tr => (Ok a, tr).

Definition xbind {A B} (m : MX A) (f : A -> MX B) : MX B :=
  fun tr =>
    match m tr with
    | (Ok a, tr') => f a tr'
    | (Raise e, tr') => (Raise e, tr')
    end.

Definition xlift {A} (o : outcome A) : MX A := fun tr => (o, tr).

Definition xissue {A} (c : xcall) (r : outcome A) : MX A := fun tr => (r, (tr ++ [c])%list).

Notation "x <~ m ;; k" := (xbind m (fun x => k))
  (at level 61, m at next level, right associativity).

Definition xrun {A} (m : MX A) : outcome A * list xcall := m [].

(** ** [CloudflareHandler.create_dns_record] and [delete_dns_record]
    (cf_handler.py, lines 151-222). *)

Definition create_dns_record (xu : XUpstream) (c : config)
    (zone_id record_type name content : string) (ttl : Z) (proxied : bool) : MX json :=
  cl <~ xlift (_get_client c) ;;
  record <~ xissue (XDnsRecordsCreate zone_id record_type name content ttl proxied)
                   (xu_dns_records_create xu cl zone_id record_type name content ttl proxied) ;;
  xret (dns_record_data record).

Definition delete_dns_record (xu : XUpstream) (c : config) (zone_id record_id : string)
    : MX json :=
  cl <~ xlift (_get_client c) ;;
  _ <~ xissue (XDnsRecordsDelete record_id zone_id)
              (xu_dns_records_delete xu cl record_id zone_id) ;;
  xret (JBool true).

Section PostHandlers.
Context `{Builtins}.

(** ** [CloudflareHandler.run_ai] (cf_handler.py, lines 586-602). The
    client's 60 s timeout is not modelled: a timeout is one more exception
    the POST may raise. *)

Definition run_ai (xu : XUpstream) (c : config) (account_id model_name prompt : string)
    : MX json :=
  hdrs <~ xlift (_get_auth_headers c) ;;
  let url := _CF_API_BASE ++ "/accounts/" ++ account_id ++ "/ai/run/" ++ model_name in
  let body := JObj [("messages", JList [JObj [("role", JStr "user"); ("content", JStr prompt)]])] in
  data <~ xissue (XHttpPost url hdrs body) (xu_http_post xu url hdrs body) ;;
  match data with
  | JObj fs =>
      match obj_get_default fs "result" (JObj []) with
      | JObj result => xret (JObj result)
      | result => xret (JObj [("response", JStr (py_str result))])
      end
  | _ => xlift (Raise (AttributeError ("'" ++ py_type_name data ++ "' object has no attribute 'get'")))
  end.

(** ** [CloudflareHandler.get_zone_analytics] (cf_handler.py, lines 497-532). *)

Definition _ANALYTICS_QUERY : string := "
query($zoneTag: String!, $start: Time!, $end: Time!) {
  viewer {
    zones(filter: {zoneTag: $zoneTag}) {
      httpRequests1hGroups(
        limit: 24
        orderBy: [datetimeHour_ASC]
        filter: {datetimeHour_geq: $start, datetimeHour_lt: $end}
      ) {
        sum {
          requests
          cachedRequests
          bytes
          cachedBytes
          threats
          pageViews
        }
      }
    }
  }
}
".

(** What the handler does with the parsed response (lines 520-532):
    [data.get("data", {})], then ["viewer"], then the first of ["zones"],
    then its ["httpRequests1hGroups"]; any level of the wrong type, or an
    empty zone list, gives [{}]. *)
Definition analytics_of_response (data : json) : outcome json :=
  match data with
  | JObj fs =>
      match obj_get_default fs "data" (JObj []) with
      | JObj gql_data =>
          match obj_get_default gql_data "viewer" (JObj []) with
          | JObj viewer =>
              match obj_get_default viewer "zones" (JList []) with
              | JList (first :: _) =>
                  match first with
                  | JObj f =>
                      match obj_get_default f "httpRequests1hGroups" (JList []) with
                      | JList groups => _aggregate_analytics groups
                      | _ => Ok (JObj [])
                      end
                  | _ => Ok (JObj [])
                  end
              | _ => Ok (JObj [])
              end
          | _ => Ok (JObj [])
          end
      | _ => Ok (JObj [])
      end
  | _ => Raise (AttributeError ("'" ++ py_type_name data ++ "' object has no attribute 'get'"))
  end.

(** [start] and [end_] are [start.strftime("%Y-%m-%dT%H:%M:%SZ")] and
    [now.strftime(...)] for [now = datetime.now(timezone.utc)] and
    [start = now - timedelta(hours=24)]: the clock is an input here. *)
Definition get_zone_analytics (xu : XUpstream) (c : config) (zone_id start end_ : string)
    : MX json :=
  let variables := JObj [("zoneTag", JStr zone_id); ("start", JStr start); ("end", JStr end_)] in
  hdrs <~ xlift (_get_auth_headers c) ;;
  let url := _CF_API_BASE ++ "/graphql" in
  let body := JObj [("query", JStr _ANALYTICS_QUERY); ("variables", variables)] in
  data <~ xissue (XHttpPost url hdrs body) (xu_http_post xu url hdrs body) ;;
  xlift (analytics_of_response data).

End PostHandlers.

(** ** [CloudflareHandler.create_custom_hostname] (cf_handler.py,
    lines 408-423), unreachable from its tool (see C2). *)

Definition custom_hostname_data (h : custom_hostname) : json :=
  JObj [("id", JStr (ch_id h)); ("hostname", JStr (ch_hostname h)); ("status", JStr (ch_status h))].

Definition create_custom_hostname (xu : XUpstream) (c : config) (zone_id hostname : string)
    : MX json :=
  cl <~ xlift (_get_client c) ;;
  let ssl := JObj [("method", JStr "http"); ("type", JStr "dv")] in
  result <~ xissue (XCustomHostnamesCreate zone_id hostname ssl)
                   (xu_custom_hostnames_create xu cl zone_id hostname ssl) ;;
  xret (custom_hostname_data result).

(** ** The mixins. Their [self._get_client()] is whatever the host class
    provides, a parameter here; the stubs of [CloudflareBase] and
    [SslMixin] raise a bare [NotImplementedError], whose [str] is empty. *)

Definition stub_get_client : outcome client := Raise (OtherError "").

(** [CreateDnsRecordParams] and [UpdateDnsRecordParams]
    (cf_handler_base.py, lines 23-45). *)
Record CreateDnsRecordParams : Type := mkCreateParams {
  p_record_type : string; p_name : string; p_content : string; p_ttl : Z; p_proxied : bool
}.

Record UpdateDnsRecordParams : Type := mkUpdateParams {
  u_content : string; u_ttl : Z; u_proxied : option bool
}.

(** [DnsMixin.create_dns_record] (cf_handler_dns.py, lines 50-73). *)
Definition dns_mixin_create_dns_record (xu : XUpstream) (get_client : outcome client)
    (zone_id : string) (params : CreateDnsRecordParams) : MX json :=
  cl <~ xlift get_client ;;
  record <~ xissue (XDnsRecordsCreate zone_id (p_record_type params) (p_name params)
                      (p_content params) (p_ttl params) (p_proxied params))
                   (xu_dns_records_create xu cl zone_id (p_record_type params) (p_name params)
                      (p_content params) (p_ttl params) (p_proxied params)) ;;
  xret (dns_record_data record).

(** [DnsMixin.update_dns_record] (cf_handler_dns.py, lines 75-107). *)
Definition dns_mixin_update_dns_record (u : Upstream) (get_client : outcome client)
    (zone_id record_id : string) (params : UpdateDnsRecordParams) : M json :=
  cl <- lift get_client ;;
  existing <- issue (CallDnsRecordsGet record_id zone_id)
                    (up_dns_records_get u cl record_id zone_id) ;;
  let proxied := u_proxied params in
  let effective_proxied :=
    match proxied with Some p => Some p | None => rec_proxied existing end in
  record <- issue (CallDnsRecordsEdit record_id zone_id (rec_name existing)
                     (rec_type existing) (u_content params) (u_ttl params) effective_proxied)
                  (up_dns_records_edit u cl record_id zone_id (rec_name existing)
                     (rec_type existing) (u_content params) (u_ttl params) effective_proxied) ;;
  ret (dns_record_data record).

(** [SslMixin]'s ssl configuration (cf_handler_ssl.py, lines 100-104 and
    127-131). *)
Definition ssl_mixin_ssl_config (min_tls_version : string) : json :=
  JObj [("method", JStr "http"); ("type", JStr "dv");
        ("settings", JObj [("min_tls_version", JStr min_tls_version)])].

Definition ssl_mixin_create_custom_hostname (xu : XUpstream) (get_client : outcome client)
    (zone_id hostname min_tls_version : string) : MX json :=
  let ssl_config := ssl_mixin_ssl_config min_tls_version in
  cl <~ xlift get_client ;;
  result <~ xissue (XCustomHostnamesCreate zone_id hostname ssl_config)
                   (xu_custom_hostnames_create xu cl zone_id hostname ssl_config) ;;
  xret (custom_hostname_data result).

Definition ssl_mixin_update_custom_hostname (xu : XUpstream) (get_client : outcome client)
    (zone_id custom_hostname_id min_tls_version : string) : MX json :=
  let ssl_config := ssl_mixin_ssl_config min_tls_version in
  cl <~ xlift get_client ;;
  result <~ xissue (XCustomHostnamesEdit custom_hostname_id zone_id ssl_config)
                   (xu_custom_hostnames_edit xu cl custom_hostname_id zone_id ssl_config) ;;
  xret (custom_hostname_data result).

Definition ssl_mixin_delete_custom_hostname (xu : XUpstream) (get_client : outcome client)
    (zone_id custom_hostname_id : string) : MX json :=
  cl <~ xlift get_client ;;
  _ <~ xissue (XCustomHostnamesDelete custom_hostname_id zone_id)
              (xu_custom_hostnames_delete xu cl custom_hostname_id zone_id) ;;
  xret (JBool true).

(** ** Spec-side notions for the further properties *)

(** The keys of a mapping restricted to an allow-list. *)
Definition restrict_keys (keys : list string) (d : list (string * json)) : list (string * json) :=
  filter (fun kv => existsb (String.eqb (fst kv)) keys) d.

(** A settings item whose id, when present, is a string. *)
Definition string_id (it : json) : Prop :=
  match it with
  | JObj fs => match obj_get fs "id" with Some (JStr _) | None => True | _ => False end
  | _ => True
  end.

(** [str(id)] of the last item with an id and a present, non-null value
    whose [str(id)] is [k]. *)
Fixpoint last_str_setting `{Builtins} (k : string) (items : list json) : option json :=
  match items with
  | [] => None
  | it :: rest =>
      match last_str_setting k rest with
      | Some v => Some v
      | None =>
          match it with
          | JObj fs =>
              match obj_get fs "id", obj_get fs "value" with
              | Some i, Some v =>
                  if String.eqb (py_str i) k then
                    match v with JNull => None | _ => Some v end
                  else None
              | _, _ => None
              end
          | _ => None
          end
      end
  end.

Definition is_dict (v : json) : bool := match v with JObj _ => true | _ => false end.

Definition add_totals (a b : totals) : totals :=
  mkTotals (t_req a + t_req b) (t_cached_req a + t_cached_req b) (t_bw a + t_bw b)
           (t_cached_bw a + t_cached_bw b) (t_threats a + t_threats b) (t_pv a + t_pv b).

(** A string made of commas and ASCII whitespace only. *)
Definition blank_list (s : string) : Prop :=
  Forall (fun ch => ch = ","%char \/ py_isspace ch = true) (list_ascii_of_string s).

(** The string arguments of a tool call. *)
Definition tool_string_args (t : tool_call) : list string :=
  match t with
  | TListZones => []
  | TListDnsRecords z | TGetZoneSettings z | TGetCacheSettings z | TGetSpeedSettings z
  | TListFirewallRules z | TGetSecuritySettings z | TGetSslSettings z
  | TListSslCertificates z | TListCustomHostnames z | TGetEmailRouting z
  | TListEmailRoutingRules z | TGetDnssec z | TGetDnsSettings z | TGetZoneAnalytics z
  | TListWorkerRoutes z => [z]
  | TCreateDnsRecord z ty n ct _ _ => [z; ty; n; ct]
  | TUpdateDnsRecord z r ct _ _ => [z; r; ct]
  | TDeleteDnsRecord z r => [z; r]
  | TPurgeCache z f tg _ => [z; f; tg]
  | TCreateCustomHostname z h v => [z; h; v]
  | TUpdateCustomHostname z h v => [z; h; v]
  | TDeleteCustomHostname z h => [z; h]
  | TListAiModels a | TListWorkers a => [a]
  | TRunAi a m p => [a; m; p]
  | TGetWorker a n => [a; n]
  end.

(** The items of [data.get("result", [])], an absent or non-list result
    counting as no items. *)
Definition result_items (fs : list (string * json)) : list json :=
  match obj_get_default fs "result" (JList []) with JList l => l | _ => [] end.

(** Sample upstream for the POST and write requests: every POST answers
    [post_body], writes echo their arguments. *)
Definition sample_xupstream (post_body : json) : XUpstream := {|
  xu_http_post := fun _ _ _ => Ok post_body;
  xu_dns_records_create := fun _ _ type name content ttl proxied =>
    Ok (mkDnsRecord "rec-new" type name content ttl (Some proxied));
  xu_dns_records_delete := fun _ rid _ =>
    if String.eqb rid "rec-1" then Ok tt else Raise (NotFoundError "Not found");
  xu_custom_hostnames_create := fun _ _ hostname _ => Ok (mkCustomHostname "ch-1" hostname "pending");
  xu_custom_hostnames_edit := fun _ hid _ _ => Ok (mkCustomHostname hid "app.partner.com" "active");
  xu_custom_hostnames_delete := fun _ _ _ => Ok tt
|}.

(** Upstreams that reject the configured credentials: every SDK request
    raises [cloudflare.AuthenticationError]; the raw httpx requests get
    the 401 status, which [raise_for_status] turns into
    [httpx.HTTPStatusError], not an SDK error. *)
Definition rejecting_upstream : Upstream := {|
  up_dns_records_get := fun _ _ _ => Raise (AuthenticationError "Invalid API Token");
  up_dns_records_edit := fun _ _ _ _ _ _ _ _ => Raise (AuthenticationError "Invalid API Token");
  up_cache_purge := fun _ _ _ => Raise (AuthenticationError "Invalid API Token");
  up_email_routing_get := fun _ _ => Raise (AuthenticationError "Invalid API Token");
  up_custom_hostnames_list := fun _ _ => Raise (AuthenticationError "Invalid API Token");
  up_http_get := fun _ _ => Raise (OtherError "Client error '401 Unauthorized'")
|}.

Definition rejecting_xupstream : XUpstream := {|
  xu_http_post := fun _ _ _ => Raise (OtherError "Client error '401 Unauthorized'");
  xu_dns_records_create := fun _ _ _ _ _ _ _ => Raise (AuthenticationError "Invalid API Token");
  xu_dns_records_delete := fun _ _ _ => Raise (AuthenticationError "Invalid API Token");
  xu_custom_hostnames_create := fun _ _ _ _ => Raise (AuthenticationError "Invalid API Token");
  xu_custom_hostnames_edit := fun _ _ _ _ => Raise (AuthenticationError "Invalid API Token");
  xu_custom_hostnames_delete := fun _ _ _ => Raise (AuthenticationError "Invalid API Token")
|}.

(** * Claims *)

(** Sanity checks of the Python built-ins model. *)

Example py_split_comma_ex : py_split_comma "a, b,,c" = ["a"; " b"; ""; "c"].
Proof. reflexivity. Qed.

Example split_strip_ex : split_strip " https://a.com/x , ,https://b.com/y" = ["https://a.com/x"; "https://b.com/y"].
Proof. reflexivity. Qed.

Example int_of_str_ex : ascii_int_of_str " -1_000 " = Ok (-1000).
Proof. reflexivity. Qed.

Example py_str_ex : py_str (JInt 1203) = "1203" /\ py_str (JList [JStr "a"; JInt 0]) = "['a', 0]".
Proof. split; reflexivity. Qed.

Lemma truthy_false (s : string) : truthy s = false <-> s = "".
Proof. unfold truthy; destruct (String.eqb_spec s ""); simpl; intuition congruence. Qed.

Lemma truthy_true (s : string) : truthy s = true <-> s <> "".
Proof. unfold truthy; destruct (String.eqb_spec s ""); simpl; intuition congruence. Qed.

(** C8: the auth resolver. A non-empty token yields the bearer-token
    client and the [Authorization: Bearer] header, whatever the key and
    email are; an empty token with a non-empty key and a non-empty email
    yields the key+email client and the [X-Auth-Email]/[X-Auth-Key]
    headers; every other configuration raises the configuration error. *)
Theorem auth_resolver_modes : forall c : config,
  (cf_api_token c <> "" ->
     _get_client c = Ok (TokenClient (cf_api_token c)) /\
     _get_auth_headers c = Ok [("Authorization", "Bearer " ++ cf_api_token c)]) /\
  (cf_api_token c = "" -> cf_api_key c <> "" -> cf_api_email c <> "" ->
     _get_client c = Ok (KeyClient (cf_api_email c) (cf_api_key c)) /\
     _get_auth_headers c = Ok [("X-Auth-Email", cf_api_email c); ("X-Auth-Key", cf_api_key c)]) /\
  (cf_api_token c = "" -> (cf_api_key c = "" \/ cf_api_email c = "") ->
     _get_client c = Raise (ValueError config_error_msg) /\
     _get_auth_headers c = Raise (ValueError config_error_msg)).
Proof.
  intros [tok key email]; simpl; unfold _get_client, _get_auth_headers; simpl.
  repeat split; intros;
    repeat match goal with
    | H : ?s <> "" |- _ => apply truthy_true in H; rewrite H
    | H : ?s = "" |- _ => subst s
    | H : _ \/ _ |- _ => destruct H
    end; simpl; auto;
    try (destruct (truthy key); reflexivity).
Qed.

Lemma auth_resolver_modes_witness :
  _get_client both_config = Ok (TokenClient (cf_api_token both_config)) /\
  _get_auth_headers both_config = Ok [("Authorization", "Bearer " ++ cf_api_token both_config)].
Proof. apply (proj1 (auth_resolver_modes both_config)). vm_compute. discriminate. Defined.

(** C3: a DNS record update first reads the existing record, then issues
    exactly one edit that carries the existing record's [name] and [type],
    the caller's [content] and [ttl], and the caller's [proxied] when it is
    not [None], the existing record's [proxied] otherwise. The complete
    upstream trace: nothing when no credential mode resolves; only the read
    when the read fails; the read followed by that single edit otherwise. *)
Theorem update_dns_record_read_then_edit :
  forall u c zone_id record_id content ttl proxied,
  snd (run (update_dns_record u c zone_id record_id content ttl proxied)) =
  match _get_client c with
  | Raise _ => []
  | Ok cl =>
      CallDnsRecordsGet record_id zone_id ::
      match up_dns_records_get u cl record_id zone_id with
      | Raise _ => []
      | Ok existing =>
          [CallDnsRecordsEdit record_id zone_id (rec_name existing) (rec_type existing)
             content ttl
             (match proxied with Some p => Some p | None => rec_proxied existing end)]
      end
  end.
Proof.
  intros u c zone_id record_id content ttl proxied.
  unfold run, update_dns_record, bind, lift, issue, ret.
  destruct (_get_client c) as [cl | e]; [| reflexivity].
  simpl. destruct (up_dns_records_get u cl record_id zone_id) as [existing | e]; [| reflexivity].
  simpl. destruct (up_dns_records_edit _ _ _ _ _ _ _ _ _); reflexivity.
Qed.

(** C6: cache purge precedence. Once the client is obtained (a credential
    mode resolves; otherwise the configuration error is raised and nothing
    is sent), [purge_everything] issues exactly one purge-everything call
    whatever [files] and [tags] are; otherwise a non-empty [files] issues
    exactly one purge by the comma-split, stripped, non-empty URL list;
    otherwise a non-empty [tags] issues exactly one purge by tag list built
    the same way; otherwise the ValueError "must specify one of ..." is
    raised and no upstream call is made. *)
Theorem purge_cache_precedence :
  forall `{Builtins} u c zone_id files tags purge_everything,
  let '(r, tr) := run (purge_cache u c zone_id files tags purge_everything) in
  match _get_client c with
  | Raise e => r = Raise e /\ tr = []
  | Ok cl =>
      if purge_everything then tr = [CallCachePurge zone_id PurgeEverything]
      else if truthy files then tr = [CallCachePurge zone_id (PurgeFiles (split_strip files))]
      else if truthy tags then tr = [CallCachePurge zone_id (PurgeTags (split_strip tags))]
      else r = Raise (ValueError purge_error_msg) /\ tr = []
  end.
Proof.
  intros B u c zone_id files tags pe.
  unfold run, purge_cache, bind, lift, issue, ret, raise.
  destruct (_get_client c) as [cl | e]; [| split; reflexivity].
  destruct pe; [destruct (up_cache_purge u cl zone_id PurgeEverything); reflexivity |].
  destruct (truthy files); [destruct (up_cache_purge _ _ _ _); reflexivity |].
  destruct (truthy tags); [destruct (up_cache_purge _ _ _ _); reflexivity |].
  split; reflexivity.
Qed.

Lemma dict_lookup_set (d : list (string * json)) (k k' : string) (v : json) :
  dict_lookup (dict_set d k v) k' = if String.eqb k' k then Some v else dict_lookup d k'.
Proof.
  induction d as [| [k0 v0] rest IH]; simpl.
  - reflexivity.
  - destruct (String.eqb_spec k k0) as [-> | Hne]; simpl.
    + destruct (String.eqb k' k0); reflexivity.
    + rewrite IH. destruct (String.eqb_spec k' k0) as [-> | ]; [| reflexivity].
      destruct (String.eqb_spec k0 k); [congruence | reflexivity].
Qed.

Lemma dict_set_keys (d : list (string * json)) (k : string) (v : json) :
  map fst (dict_set d k v) = if existsb (String.eqb k) (map fst d) then map fst d
                             else (map fst d ++ [k])%list.
Proof.
  induction d as [| [k0 v0] rest IH]; simpl; [reflexivity |].
  destruct (String.eqb_spec k k0); simpl; [reflexivity |].
  rewrite IH. destruct (existsb _ _); reflexivity.
Qed.

Lemma dict_set_nodup (d : list (string * json)) (k : string) (v : json) :
  NoDup (map fst d) -> NoDup (map fst (dict_set d k v)).
Proof.
  intros Hd. rewrite dict_set_keys.
  destruct (existsb (String.eqb k) (map fst d)) eqn:E; [assumption |].
  apply NoDup_app; [assumption | constructor; [intros [] | constructor] |].
  intros x Hx [-> | []].
  assert (existsb (String.eqb x) (map fst d) = true) as Hin.
  { apply existsb_exists. exists x. split; [assumption | apply String.eqb_refl]. }
  congruence.
Qed.

Lemma settings_comprehension_spec `{Builtins} (keys : list string) (items : list json) :
  Forall hashable_id items ->
  forall acc, NoDup (map fst acc) ->
  exists d, settings_comprehension keys items acc = Ok d /\ NoDup (map fst d) /\
    forall k, dict_lookup d k =
      match (if existsb (String.eqb k) keys then last_setting_value k items else None) with
      | Some v => Some v
      | None => dict_lookup acc k
      end.
Proof.
  induction items as [| it rest IH]; intros Hh acc Hacc.
  - exists acc. repeat split; [assumption |]. intros k. simpl.
    destruct (existsb _ _); reflexivity.
  - inversion Hh as [| ? ? Hit Hrest]; subst.
    assert (Hskip : forall acc', NoDup (map fst acc') ->
              (forall k, existsb (String.eqb k) keys = true ->
                 last_setting_value k (it :: rest) = last_setting_value k rest) ->
              (forall k, dict_lookup acc' k = dict_lookup acc k) ->
              exists d, settings_comprehension keys rest acc' = Ok d /\ NoDup (map fst d) /\
                forall k, dict_lookup d k =
                  match (if existsb (String.eqb k) keys then last_setting_value k (it :: rest) else None) with
                  | Some v => Some v
                  | None => dict_lookup acc k
                  end).
    { intros acc' Hacc' Hlast Hsame.
      destruct (IH Hrest acc' Hacc') as (d & Hd & Hnd & Hlk).
      exists d. repeat split; [assumption | assumption |]. intros k. rewrite Hlk, Hsame.
      destruct (existsb (String.eqb k) keys) eqn:Ek; [rewrite (Hlast k Ek) |]; reflexivity. }
    destruct it as [| b | z | s | l | fs]; cbn [settings_comprehension];
      try (apply Hskip; [assumption | | reflexivity];
           intros k _; simpl; destruct (last_setting_value k rest); reflexivity).
    unfold hashable_id in Hit. unfold obj_get_default.
    destruct (obj_get fs "id") as [[| b | z | i | l | fs'] |] eqn:Eid;
      try contradiction; cbn [py_in_keys];
      try (apply Hskip; [assumption | | reflexivity];
           intros k _; simpl; rewrite Eid; destruct (last_setting_value k rest); reflexivity).
    destruct (existsb (String.eqb i) keys) eqn:Ei.
    + destruct (obj_get fs "value") as [[| b | z | s | l | fs'] |] eqn:Ev;
        try (apply Hskip; [assumption | | reflexivity];
             intros k _; simpl; rewrite Eid, Ev;
             destruct (last_setting_value k rest); [reflexivity |];
             destruct (String.eqb i k); reflexivity);
        (unfold py_str;
         match goal with |- context [dict_set acc ?k ?v] =>
           destruct (IH Hrest (dict_set acc k v) (dict_set_nodup acc k v Hacc))
             as (d & Hd & Hnd & Hlk) end;
         exists d; repeat split; [assumption | assumption |]; intros k; rewrite Hlk;
         simpl; rewrite Eid, Ev, dict_lookup_set;
         destruct (String.eqb_spec k i) as [-> | Hne];
         [ rewrite Ei; destruct (last_setting_value i rest); [reflexivity |];
           rewrite String.eqb_refl; reflexivity
         | destruct (existsb (String.eqb k) keys); [| reflexivity];
           destruct (last_setting_value k rest); [reflexivity |];
           destruct (String.eqb_spec i k); [congruence | reflexivity] ]).
    + apply Hskip; [assumption | | reflexivity].
      intros k Ek. simpl. rewrite Eid.
      destruct (last_setting_value k rest); [reflexivity |].
      destruct (obj_get fs "value"); [| reflexivity].
      destruct (String.eqb_spec i k) as [-> | ]; [congruence | reflexivity].
Qed.

(** C9 (amended): a zone-settings projection with allow-list [keys] (the
    cache, speed and security projections pass [_CACHE_KEYS], [_SPEED_KEYS],
    [_SECURITY_KEYS]), on a settings list whose ids are all hashable,
    returns a mapping without repeated keys that holds exactly the
    allow-listed ids having a present, non-null value, each mapped to its
    value (to the last one when an id occurs several times). *)
Theorem settings_projection_filter :
  forall `{Builtins} u c zone_id keys hdrs fs items,
  _get_auth_headers c = Ok hdrs ->
  up_http_get u (_CF_API_BASE ++ "/zones/" ++ zone_id ++ "/settings") hdrs = Ok (JObj fs) ->
  obj_get_default fs "result" (JList []) = JList items ->
  Forall hashable_id items ->
  exists d,
    fst (run (_get_zone_settings_filtered u c zone_id keys)) = Ok (JObj d) /\
    NoDup (map fst d) /\
    forall k, dict_lookup d k =
      if existsb (String.eqb k) keys then last_setting_value k items else None.
Proof.
  intros B u c zone_id keys hdrs fs items Hh Hget Hres Hids.
  destruct (settings_comprehension_spec keys items Hids [] (NoDup_nil _))
    as (d & Hd & Hnd & Hlk).
  exists d. split; [| split; [assumption |]].
  - unfold run, _get_zone_settings_filtered, bind, lift, issue, ret.
    rewrite Hh. cbv beta iota. rewrite Hget. cbv beta iota. rewrite Hres.
    rewrite Hd. reflexivity.
  - intros k. rewrite Hlk. destruct (existsb _ _); [destruct (last_setting_value k items) |]; reflexivity.
Qed.

Lemma settings_projection_filter_witness :
  exists d,
    fst (run (_get_zone_settings_filtered (sample_upstream settings_body) token_config
                "zone-1" _CACHE_KEYS)) = Ok (JObj d) /\
    NoDup (map fst d) /\
    forall k, dict_lookup d k =
      if existsb (String.eqb k) _CACHE_KEYS
      then last_setting_value k [JObj [("id", JStr "cache_level"); ("value", JStr "aggressive")];
                                 JObj [("id", JStr "ssl"); ("value", JStr "full")]]
      else None.
Proof.
  apply (settings_projection_filter (sample_upstream settings_body) token_config "zone-1"
           _CACHE_KEYS [("Authorization", "Bearer tok-123")]
           [("result", JList [JObj [("id", JStr "cache_level"); ("value", JStr "aggressive")];
                              JObj [("id", JStr "ssl"); ("value", JStr "full")]])]).
  - reflexivity.
  - reflexivity.
  - reflexivity.
  - repeat constructor.
Defined.

(** C9 counterexample: a settings item whose id is a JSON array makes the
    membership test [item.get("id") in keys] raise TypeError, so the cache
    projection fails instead of returning [{"cache_level": "aggressive"}]. *)
Lemma settings_projection_unhashable_id :
  fst (run (get_cache_settings
              (sample_upstream
                 (JObj [("result", JList [JObj [("id", JStr "cache_level"); ("value", JStr "aggressive")];
                                          JObj [("id", JList [JStr "ssl"]); ("value", JStr "full")]])]))
              token_config "zone-1"))
  = Raise (TypeError "unhashable type: 'list'").
Proof. reflexivity. Qed.

Lemma py_int_counter `{Builtins} (s : list (string * json)) (k : string) :
  counter_is_int s k -> py_int (obj_get_default s k (JInt 0)) = Ok (counter_value s k).
Proof.
  unfold counter_is_int, counter_value, obj_get_default.
  destruct (obj_get s k) as [[| [] | z | | |] |]; simpl; try contradiction; reflexivity.
Qed.

Lemma add_bucket_ints `{Builtins} (t : totals) (s : list (string * json)) :
  Forall (counter_is_int s) analytics_counters ->
  add_bucket t s =
  Ok (mkTotals (t_req t + counter_value s "requests")
               (t_cached_req t + counter_value s "cachedRequests")
               (t_bw t + counter_value s "bytes")
               (t_cached_bw t + counter_value s "cachedBytes")
               (t_threats t + counter_value s "threats")
               (t_pv t + counter_value s "pageViews")).
Proof.
  intros Hs. unfold analytics_counters in Hs.
  repeat match goal with H : Forall _ (_ :: _) |- _ => inversion H; subst; clear H end.
  unfold add_bucket. repeat (rewrite py_int_counter; [cbn [obind] | assumption]).
  reflexivity.
Qed.

Lemma aggregate_loop_ints `{Builtins} (groups : list json) :
  Forall (fun s => Forall (counter_is_int s) analytics_counters) (well_formed_sums groups) ->
  forall t, aggregate_loop groups t =
  Ok (mkTotals (t_req t + counter_total groups "requests")
               (t_cached_req t + counter_total groups "cachedRequests")
               (t_bw t + counter_total groups "bytes")
               (t_cached_bw t + counter_total groups "cachedBytes")
               (t_threats t + counter_total groups "threats")
               (t_pv t + counter_total groups "pageViews")).
Proof.
  unfold counter_total.
  induction groups as [| g rest IH]; intros Hwf t.
  - destruct t; simpl; f_equal; f_equal; lia.
  - destruct g as [| b | z | str | l | fs]; simpl in Hwf |- *;
      try (rewrite IH by assumption; reflexivity).
    unfold obj_get_default.
    destruct (obj_get fs "sum") as [[| b | z | str | l | s] |] eqn:Esum;
      cbv iota; try (rewrite IH by assumption; reflexivity).
    + inversion Hwf as [| ? ? Hs Hrest]; subst.
      rewrite add_bucket_ints by assumption. cbn [obind].
      rewrite IH by assumption. simpl. f_equal. f_equal; lia.
    + unfold add_bucket. cbn. rewrite IH by assumption. simpl. f_equal. f_equal; lia.
Qed.

(** C7 (amended): the aggregator on the empty list yields the all-zero
    four-group structure; on any bucket list whose well-formed buckets
    (mappings holding a mapping under "sum") carry only integer or absent
    counters, it yields, for each of the six counters, the sum over exactly
    the well-formed buckets (other entries are skipped), with uncached =
    total - cached for requests and for bandwidth. *)
Theorem aggregate_analytics_sums : forall `{Builtins},
  _aggregate_analytics [] =
    Ok (JObj [("requests", JObj [("total", JInt 0); ("cached", JInt 0); ("uncached", JInt 0)]);
              ("bandwidth", JObj [("total", JInt 0); ("cached", JInt 0); ("uncached", JInt 0)]);
              ("threats", JObj [("total", JInt 0)]);
              ("pageviews", JObj [("total", JInt 0)])]) /\
  forall groups,
  Forall (fun s => Forall (counter_is_int s) analytics_counters) (well_formed_sums groups) ->
  _aggregate_analytics groups =
    Ok (JObj [("requests", JObj [("total", JInt (counter_total groups "requests"));
                                 ("cached", JInt (counter_total groups "cachedRequests"));
                                 ("uncached", JInt (counter_total groups "requests"
                                                    - counter_total groups "cachedRequests"))]);
              ("bandwidth", JObj [("total", JInt (counter_total groups "bytes"));
                                  ("cached", JInt (counter_total groups "cachedBytes"));
                                  ("uncached", JInt (counter_total groups "bytes"
                                                     - counter_total groups "cachedBytes"))]);
              ("threats", JObj [("total", JInt (counter_total groups "threats"))]);
              ("pageviews", JObj [("total", JInt (counter_total groups "pageViews"))])]).
Proof.
  intros B. split; [reflexivity |].
  intros groups Hwf. unfold _aggregate_analytics.
  rewrite (aggregate_loop_ints groups Hwf zero_totals). reflexivity.
Qed.

Lemma aggregate_analytics_sums_witness :
  _aggregate_analytics
    [JObj [("sum", JObj [("requests", JInt 600); ("cachedRequests", JInt 500)])];
     JStr "malformed";
     JObj [("sum", JObj [("requests", JInt 400); ("cachedRequests", JInt 300)])]] =
  Ok (JObj [("requests", JObj [("total", JInt 1000); ("cached", JInt 800); ("uncached", JInt 200)]);
            ("bandwidth", JObj [("total", JInt 0); ("cached", JInt 0); ("uncached", JInt 0)]);
            ("threats", JObj [("total", JInt 0)]);
            ("pageviews", JObj [("total", JInt 0)])]).
Proof.
  apply (proj2 aggregate_analytics_sums).
  repeat constructor.
Defined.

(** C7 counterexample: a well-formed bucket whose [sum] has a null counter
    is not skipped: [int(None)] raises TypeError and the aggregation fails. *)
Lemma aggregate_analytics_null_counter :
  _aggregate_analytics
    [JObj [("sum", JObj [("requests", JInt 600); ("cachedRequests", JInt 500)])];
     JObj [("sum", JObj [("requests", JNull)])]] =
  Raise (TypeError "int() argument must be a string, a bytes-like object or a real number, not 'NoneType'").
Proof. reflexivity. Qed.

Lemma find_script_none (script_name : string) (result : list json) :
  Forall (fun it => match it with
                    | JObj f => obj_get f "id" <> Some (JStr script_name)
                    | _ => True
                    end) result ->
  find_script script_name result = None.
Proof.
  induction result as [| it rest IH]; intros Hall; [reflexivity |].
  inversion Hall as [| ? ? Hit Hrest]; subst.
  destruct it as [| | | | | fs]; simpl; try (apply IH; assumption).
  destruct (obj_get fs "id") as [[| | | s | |] |]; try (apply IH; assumption).
  destruct (String.eqb_spec s script_name) as [-> | ]; [congruence | apply IH; assumption].
Qed.

(** C5 (amended): a worker lookup sends exactly one request, the listing of
    all scripts of the account (never a single-script fetch). When the
    listing's [result] is a list with no entry whose id equals the
    requested name, the lookup raises ValueError (not the SDK's
    NotFoundError) with the message "Worker 脚本 <name> 不存在", which names
    the requested id exactly; the tool's catch-all turns it into an error
    envelope with that message. When [result] is present but not a list,
    the lookup returns [{}] instead. *)
Theorem get_worker_list_and_filter : forall `{Builtins} u c account_id script_name hdrs fs,
  _get_auth_headers c = Ok hdrs ->
  up_http_get u (_CF_API_BASE ++ "/accounts/" ++ account_id ++ "/workers/scripts") hdrs
    = Ok (JObj fs) ->
  (forall result,
     obj_get_default fs "result" (JList []) = JList result ->
     Forall (fun it => match it with
                       | JObj f => obj_get f "id" <> Some (JStr script_name)
                       | _ => True
                       end) result ->
     run (get_worker u c account_id script_name) =
       (Raise (ValueError (worker_not_found_msg script_name)),
        [CallHttpGet (_CF_API_BASE ++ "/accounts/" ++ account_id ++ "/workers/scripts") hdrs]) /\
     invoke_tool (TGetWorker account_id script_name)
       (fst (run (get_worker u c account_id script_name)))
       = _error (worker_not_found_msg script_name)) /\
  (forall other,
     obj_get_default fs "result" (JList []) = other ->
     (forall l, other <> JList l) ->
     run (get_worker u c account_id script_name) =
       (Ok (JObj []),
        [CallHttpGet (_CF_API_BASE ++ "/accounts/" ++ account_id ++ "/workers/scripts") hdrs])).
Proof.
  intros B u c account_id script_name hdrs fs Hh Hget.
  assert (Hrun : run (get_worker u c account_id script_name) =
    (match obj_get_default fs "result" (JList []) with
     | JList result =>
         match find_script script_name result with
         | Some script =>
             Ok (JObj [("id", JStr (py_str (obj_get_default script "id" (JStr ""))));
                       ("created_on", JStr (py_str (obj_get_default script "created_on" (JStr ""))));
                       ("modified_on", JStr (py_str (obj_get_default script "modified_on" (JStr ""))));
                       ("etag", JStr (py_str (obj_get_default script "etag" (JStr ""))))])
         | None => Raise (ValueError (worker_not_found_msg script_name))
         end
     | _ => Ok (JObj [])
     end,
     [CallHttpGet (_CF_API_BASE ++ "/accounts/" ++ account_id ++ "/workers/scripts") hdrs])).
  { unfold run, get_worker, bind, lift, issue, ret, raise.
    rewrite Hh. cbv beta iota. rewrite Hget. cbv beta iota.
    destruct (obj_get_default fs "result" (JList [])); try reflexivity.
    destruct (find_script script_name l); reflexivity. }
  split.
  - intros result Hres Hnone. rewrite Hrun, Hres, (find_script_none _ _ Hnone).
    split; [reflexivity |].
    unfold invoke_tool. simpl. reflexivity.
  - intros other Hres Hnot. rewrite Hrun, Hres.
    destruct other; try reflexivity. exfalso; eapply Hnot; reflexivity.
Qed.

Lemma get_worker_list_and_filter_witness :
  run (get_worker (sample_upstream scripts_body) token_config "acct-1" "ghost-worker") =
    (Raise (ValueError (worker_not_found_msg "ghost-worker")),
     [CallHttpGet (_CF_API_BASE ++ "/accounts/" ++ "acct-1" ++ "/workers/scripts")
        [("Authorization", "Bearer tok-123")]]) /\
  invoke_tool (TGetWorker "acct-1" "ghost-worker")
    (fst (run (get_worker (sample_upstream scripts_body) token_config "acct-1" "ghost-worker")))
    = _error (worker_not_found_msg "ghost-worker").
Proof.
  apply (proj1 (get_worker_list_and_filter (sample_upstream scripts_body) token_config
                  "acct-1" "ghost-worker" [("Authorization", "Bearer tok-123")]
                  [("result", JList [JObj [("id", JStr "my-worker"); ("etag", JStr "e1")];
                                     JObj [("id", JStr "api-worker"); ("etag", JStr "e2")]])]
                  eq_refl eq_refl)
           [JObj [("id", JStr "my-worker"); ("etag", JStr "e1")];
            JObj [("id", JStr "api-worker"); ("etag", JStr "e2")]] eq_refl).
  repeat constructor; simpl; discriminate.
Defined.

(** C5 counterexample: looking up "ghost-worker" in a listing without it
    does not fail with NotFoundError (it raises ValueError). *)
Lemma get_worker_not_notfounderror :
  ~ (exists s, fst (run (get_worker (sample_upstream scripts_body) token_config
                           "acct-1" "ghost-worker")) = Raise (NotFoundError s)).
Proof. intros [s Hs]. vm_compute in Hs. discriminate Hs. Qed.

(** C10 (amended): neither email-routing lookup nor custom-hostname listing
    has a soft-failure path. Whatever exception the upstream call raises
    (whatever its text, an unprovisioned-feature 1550 included), the handler
    raises that same exception after the single call, and the tool returns
    an error envelope. *)
Theorem no_soft_failure : forall u c zone_id cl e,
  _get_client c = Ok cl ->
  (up_email_routing_get u cl zone_id = Raise e ->
     run (get_email_routing u c zone_id) = (Raise e, [CallEmailRoutingGet zone_id]) /\
     invoke_tool (TGetEmailRouting zone_id) (fst (run (get_email_routing u c zone_id)))
       = _error (handle (tool_clauses (TGetEmailRouting zone_id)) e)) /\
  (up_custom_hostnames_list u cl zone_id = Raise e ->
     run (list_custom_hostnames u c zone_id) = (Raise e, [CallCustomHostnamesList zone_id]) /\
     invoke_tool (TListCustomHostnames zone_id) (fst (run (list_custom_hostnames u c zone_id)))
       = _error (handle (tool_clauses (TListCustomHostnames zone_id)) e)).
Proof.
  intros u c zone_id cl e Hc. split; intros He.
  - assert (Hrun : run (get_email_routing u c zone_id) = (Raise e, [CallEmailRoutingGet zone_id])).
    { unfold run, get_email_routing, bind, lift, issue. rewrite Hc. cbv beta iota.
      rewrite He. reflexivity. }
    rewrite Hrun. split; reflexivity.
  - assert (Hrun : run (list_custom_hostnames u c zone_id) = (Raise e, [CallCustomHostnamesList zone_id])).
    { unfold run, list_custom_hostnames, bind, lift, issue. rewrite Hc. cbv beta iota.
      rewrite He. reflexivity. }
    rewrite Hrun. split; reflexivity.
Qed.

Lemma no_soft_failure_witness :
  run (list_custom_hostnames (sample_upstream JNull) token_config "zone-1") =
    (Raise (OtherError "Error code: 403 - {'code': 1550, 'message': 'SaaS is not enabled'}"),
     [CallCustomHostnamesList "zone-1"]) /\
  invoke_tool (TListCustomHostnames "zone-1")
    (fst (run (list_custom_hostnames (sample_upstream JNull) token_config "zone-1")))
    = _error (handle (tool_clauses (TListCustomHostnames "zone-1"))
                (OtherError "Error code: 403 - {'code': 1550, 'message': 'SaaS is not enabled'}")).
Proof.
  apply (proj2 (no_soft_failure (sample_upstream JNull) token_config "zone-1"
                  (TokenClient "tok-123")
                  (OtherError "Error code: 403 - {'code': 1550, 'message': 'SaaS is not enabled'}")
                  eq_refl)).
  reflexivity.
Defined.

(** C10 counterexample: on a zone without custom hostnames provisioned
    (upstream error 1550), the listing tool returns an error envelope, not
    an empty result. *)
Lemma custom_hostnames_unprovisioned_is_error :
  invoke_tool (TListCustomHostnames "zone-1")
    (fst (run (list_custom_hostnames (sample_upstream JNull) token_config "zone-1")))
  = mkEnvelope "error" JNull "Error code: 403 - {'code': 1550, 'message': 'SaaS is not enabled'}".
Proof. reflexivity. Qed.

Lemma handle_nonempty (cls : list except_clause) (e : exc) :
  Forall (fun cl => match cl with
                    | OnNotFound m | OnAuthentication m | OnPermissionDenied m
                    | OnConnection m => m <> ""
                    end) cls ->
  handle cls e = "" -> exc_str e = "".
Proof.
  induction cls as [| cl rest IH]; intros Hall Hh; [exact Hh |].
  inversion Hall as [| ? ? Hcl Hrest]; subst. simpl in Hh.
  destruct cl as [m | m | m | p], e; simpl in Hh; try (apply IH; assumption);
    try (exfalso; apply Hcl; exact Hh).
  destruct p; [contradiction | discriminate].
Qed.

Lemma tool_clauses_nonempty (t : tool_call) :
  Forall (fun cl => match cl with
                    | OnNotFound m | OnAuthentication m | OnPermissionDenied m
                    | OnConnection m => m <> ""
                    end) (tool_clauses t).
Proof. destruct t; repeat constructor; discriminate. Qed.

Lemma handle_cases (cls : list except_clause) (e : exc) :
  handle cls e = exc_str e \/
  (exists m, handle cls e = m /\
     ((In (OnNotFound m) cls /\ exists s, e = NotFoundError s) \/
      (In (OnAuthentication m) cls /\ exists s, e = AuthenticationError s) \/
      (In (OnPermissionDenied m) cls /\ exists s, e = PermissionDeniedError s))) \/
  (exists p, handle cls e = p ++ exc_str e /\ In (OnConnection p) cls /\
     exists s, e = APIConnectionError s).
Proof.
  induction cls as [| cl rest IH]; [left; reflexivity |].
  simpl. destruct (clause_applies cl e) as [m |] eqn:Ecl.
  - right. destruct cl as [m' | m' | m' | p], e; simpl in Ecl; try discriminate Ecl;
      injection Ecl as <-.
    + left. exists m'. split; [reflexivity |]. left. split; [left; reflexivity | eexists; reflexivity].
    + left. exists m'. split; [reflexivity |]. right; left.
      split; [left; reflexivity | eexists; reflexivity].
    + left. exists m'. split; [reflexivity |]. right; right.
      split; [left; reflexivity | eexists; reflexivity].
    + right. exists p. split; [reflexivity |]. split; [left; reflexivity | eexists; reflexivity].
  - destruct IH as [H | [(m & Hm & Hin) | (p & Hp & Hin & He)]].
    + left. exact H.
    + right; left. exists m. split; [exact Hm |].
      destruct Hin as [[Hi He] | [[Hi He] | [Hi He]]];
        [left | right; left | right; right]; split; try (right; exact Hi); exact He.
    + right; right. exists p. split; [exact Hp |]. split; [right; exact Hin | exact He].
Qed.

(** C1 (amended): every tool invocation yields one of the two envelope
    shapes. When the handler call returns, the envelope is
    [{status: "success", data: <payload>, message: ""}]. When it raises,
    the envelope is [{status: "error", data: null, message: m}] where [m]
    is one of three things: the fixed (possibly identifier-interpolated)
    text of one of the tool's own [except] clauses, the clause matching the
    exception's class; or, for a tool with an
    [except cloudflare.APIConnectionError] clause and that exception, the
    clause's prefix followed by [str(exc)]; or [str(exc)] verbatim, from
    the catch-all. The clause texts and prefixes are all non-empty, so [m]
    is empty only when the exception's own string is empty. *)
Theorem tool_envelope_shapes : forall t r,
  (exists d, r = Ok d /\
     tool_envelope t r = mkEnvelope "success" (tool_success_data t d) "") \/
  (exists e, r = Raise e /\
     status (tool_envelope t r) = "error" /\ data (tool_envelope t r) = JNull /\
     (message (tool_envelope t r) = exc_str e \/
      (exists m, message (tool_envelope t r) = m /\ m <> "" /\
         ((In (OnNotFound m) (tool_clauses t) /\ exists s, e = NotFoundError s) \/
          (In (OnAuthentication m) (tool_clauses t) /\ exists s, e = AuthenticationError s) \/
          (In (OnPermissionDenied m) (tool_clauses t) /\
             exists s, e = PermissionDeniedError s))) \/
      (exists p, message (tool_envelope t r) = p ++ exc_str e /\ p <> "" /\
         In (OnConnection p) (tool_clauses t) /\ exists s, e = APIConnectionError s)) /\
     (message (tool_envelope t r) = "" -> exc_str e = "")).
Proof.
  intros t [d | e].
  - left. exists d. split; reflexivity.
  - right. exists e. split; [reflexivity |]. split; [reflexivity |]. split; [reflexivity |].
    pose proof (tool_clauses_nonempty t) as Hne. rewrite Forall_forall in Hne.
    split.
    + simpl. destruct (handle_cases (tool_clauses t) e)
        as [H | [(m & Hm & Hin) | (p & Hp & Hin & He)]].
      * left. exact H.
      * right; left. exists m. split; [exact Hm |]. split; [| exact Hin].
        destruct Hin as [[Hi _] | [[Hi _] | [Hi _]]]; exact (Hne _ Hi).
      * right; right. exists p. split; [exact Hp |]. split; [exact (Hne _ Hin) |].
        split; [exact Hin | exact He].
    + simpl. apply handle_nonempty, tool_clauses_nonempty.
Qed.

(** C1 counterexample: an exception with an empty string (an httpx timeout
    raised while fetching the zone settings, say) gives an error envelope
    whose message is empty. *)
Lemma tool_envelope_empty_message :
  invoke_tool (TGetZoneSettings "zone-1") (Raise (OtherError ""))
  = mkEnvelope "error" JNull "".
Proof. reflexivity. Qed.

(** C2: whatever the upstream would do, the create, update and delete
    custom-hostname tools always return an error envelope with null data:
    [CloudflareHandler.create_custom_hostname] takes [zone_id, hostname]
    only and the tool passes a third argument (TypeError), and the class
    has no [update_custom_hostname] nor [delete_custom_hostname]
    (AttributeError); the catch-all turns each into an error envelope. *)
Theorem custom_hostname_tools_always_error :
  forall zone_id hostname custom_hostname_id min_tls_version (body : outcome json),
  invoke_tool (TCreateCustomHostname zone_id hostname min_tls_version) body =
    _error "CloudflareHandler.create_custom_hostname() takes 3 positional arguments but 4 were given" /\
  invoke_tool (TUpdateCustomHostname zone_id custom_hostname_id min_tls_version) body =
    _error "'CloudflareHandler' object has no attribute 'update_custom_hostname'" /\
  invoke_tool (TDeleteCustomHostname zone_id custom_hostname_id) body =
    _error "'CloudflareHandler' object has no attribute 'delete_custom_hostname'".
Proof. intros. repeat split; reflexivity. Qed.

(** C4: the DNS-record tools all call the Cloudflare SDK, which raises
    [cloudflare.AuthenticationError] when it rejects the credentials.
    list_dns_records, create_dns_record and update_dns_record map it to
    "CF_API_TOKEN 无效"; delete_dns_record has no such clause, and its
    catch-all returns the exception's own text. *)
Theorem dns_tools_auth_error :
  forall u xu c cl zone_id record_id record_type name content ttl proxied proxied_opt s,
    _get_client c = Ok cl ->
    up_dns_records_get u cl record_id zone_id = Raise (AuthenticationError s) ->
    xu_dns_records_create xu cl zone_id record_type name content ttl proxied
      = Raise (AuthenticationError s) ->
    xu_dns_records_delete xu cl record_id zone_id = Raise (AuthenticationError s) ->
    invoke_tool (TListDnsRecords zone_id) (Raise (AuthenticationError s)) = _error token_invalid /\
    invoke_tool (TCreateDnsRecord zone_id record_type name content ttl proxied)
      (fst (xrun (create_dns_record xu c zone_id record_type name content ttl proxied)))
      = _error token_invalid /\
    invoke_tool (TUpdateDnsRecord zone_id record_id content ttl proxied_opt)
      (fst (run (update_dns_record u c zone_id record_id content ttl proxied_opt)))
      = _error token_invalid /\
    invoke_tool (TDeleteDnsRecord zone_id record_id)
      (fst (xrun (delete_dns_record xu c zone_id record_id))) = _error s.
Proof.
  intros u xu c cl zone_id record_id record_type name content ttl proxied proxied_opt s
    Hc Hget Hcreate Hdel.
  unfold xrun, run, create_dns_record, update_dns_record, delete_dns_record,
    xbind, xlift, xissue, xret, bind, lift, issue, ret.
  rewrite Hc. cbv beta iota. rewrite Hget, Hcreate, Hdel. repeat split.
Qed.

Lemma dns_tools_auth_error_witness :
  invoke_tool (TDeleteDnsRecord "zone-1" "rec-1")
    (fst (xrun (delete_dns_record rejecting_xupstream token_config "zone-1" "rec-1")))
  = _error "Invalid API Token".
Proof.
  exact (proj2 (proj2 (proj2
    (dns_tools_auth_error rejecting_upstream rejecting_xupstream token_config
       (TokenClient "tok-123") "zone-1" "rec-1" "A" "www.example.com" "9.9.9.9" 1 false None
       "Invalid API Token" eq_refl eq_refl eq_refl eq_refl)))).
Defined.

(** C4 failing input: with the credentials rejected, updating a record
    reports "CF_API_TOKEN 无效" while deleting it reports the SDK's own
    text. *)
Lemma dns_delete_auth_error_differs :
  message (invoke_tool (TUpdateDnsRecord "zone-1" "rec-1" "9.9.9.9" 1 None)
             (fst (run (update_dns_record rejecting_upstream token_config "zone-1" "rec-1"
                          "9.9.9.9" 1 None)))) = "CF_API_TOKEN 无效" /\
  message (invoke_tool (TDeleteDnsRecord "zone-1" "rec-1")
             (fst (xrun (delete_dns_record rejecting_xupstream token_config "zone-1" "rec-1"))))
    = "Invalid API Token".
Proof. split; reflexivity. Qed.

(** * The spec's worked examples, evaluated on the model *)

(** DNS update with [proxied=None]: the edit carries the existing name,
    type and proxied flag with the new content and ttl. *)
Example dns_update_example :
  snd (run (update_dns_record (sample_upstream JNull) token_config "zone-1" "rec-1"
              "9.9.9.9" 1 None)) =
  [CallDnsRecordsGet "rec-1" "zone-1";
   CallDnsRecordsEdit "rec-1" "zone-1" "www.example.com" "A" "9.9.9.9" 1 (Some true)].
Proof. reflexivity. Qed.

(** Purge with [purge_everything=True] plus files and tags: only the
    purge-everything call is issued. *)
Example purge_precedence_example :
  snd (run (purge_cache (sample_upstream JNull) token_config "zone-1"
              "https://a.com/x,https://b.com/y" "tag-a,tag-b" true)) =
  [CallCachePurge "zone-1" PurgeEverything].
Proof. reflexivity. Qed.

(** Purge with nothing supplied: the ValueError, and no upstream call. *)
Example purge_nothing_example :
  run (purge_cache (sample_upstream JNull) token_config "zone-1" "" "" false) =
  (Raise (ValueError purge_error_msg), []).
Proof. reflexivity. Qed.

(** Cache projection of [cache_level=aggressive, ssl=full]. *)
Example cache_settings_example :
  fst (run (get_cache_settings (sample_upstream settings_body) token_config "zone-1")) =
  Ok (JObj [("cache_level", JStr "aggressive")]).
Proof. reflexivity. Qed.

(** Key mode and no credentials. *)
Example auth_key_mode_example :
  _get_auth_headers key_config = Ok [("X-Auth-Email", "ops@example.com"); ("X-Auth-Key", "global-key")] /\
  _get_client empty_config = Raise (ValueError config_error_msg).
Proof. split; reflexivity. Qed.

(** * Further properties of the code *)

Lemma all_settings_spec `{Builtins} (items : list json) :
  forall acc, NoDup (map fst acc) ->
  NoDup (map fst (all_settings_comprehension items acc)) /\
  forall k, dict_lookup (all_settings_comprehension items acc) k =
    match last_str_setting k items with
    | Some v => Some v
    | None => dict_lookup acc k
    end.
Proof.
  induction items as [| it rest IH]; intros acc Hacc.
  - split; [assumption | reflexivity].
  - destruct it as [| b | z | s | l | fs]; cbn [all_settings_comprehension last_str_setting];
      try (destruct (IH acc Hacc) as [Hnd Hlk]; split; [assumption |];
           intros k; rewrite Hlk; destruct (last_str_setting k rest); reflexivity).
    destruct (obj_get fs "id") as [i |] eqn:Eid;
      [| destruct (IH acc Hacc) as [Hnd Hlk]; split; [assumption |];
         intros k; rewrite Hlk; destruct (last_str_setting k rest); reflexivity].
    destruct (obj_get fs "value") as [v |] eqn:Ev;
      [| destruct (IH acc Hacc) as [Hnd Hlk]; split; [assumption |];
         intros k; rewrite Hlk; destruct (last_str_setting k rest); reflexivity].
    assert (Hnull : v = JNull \/ v <> JNull) by (destruct v; [left | right ..]; congruence).
    destruct Hnull as [-> | Hv].
    + destruct (IH acc Hacc) as [Hnd Hlk]; split; [assumption |].
      intros k; rewrite Hlk; destruct (last_str_setting k rest); [reflexivity |].
      destruct (String.eqb (py_str i) k); reflexivity.
    + destruct (IH (dict_set acc (py_str i) v) (dict_set_nodup acc _ v Hacc)) as [Hnd Hlk].
      replace (match v with JNull => all_settings_comprehension rest acc
                | _ => all_settings_comprehension rest (dict_set acc (py_str i) v) end)
        with (all_settings_comprehension rest (dict_set acc (py_str i) v))
        by (destruct v; congruence).
      split; [assumption |]. intros k. rewrite Hlk, dict_lookup_set.
      destruct (last_str_setting k rest); [reflexivity |].
      destruct (String.eqb_spec k (py_str i)) as [-> | Hne].
      * rewrite String.eqb_refl. destruct v; congruence.
      * destruct (String.eqb_spec (py_str i) k); [congruence | reflexivity].
Qed.

(** X1: once the auth headers resolve and the settings GET answers a JSON
    object, [get_zone_settings] does not raise, whatever the items are
    (unlike the allow-list projections, it never hashes an id): it sends
    that one GET and returns a mapping without repeated keys that sends
    each [str(id)] to the value of the last item having that id and a
    present, non-null value. An absent or non-list [result] gives [{}]. *)
Theorem get_zone_settings_total `{Builtins} :
  forall u c zone_id hdrs fs,
  _get_auth_headers c = Ok hdrs ->
  up_http_get u (_CF_API_BASE ++ "/zones/" ++ zone_id ++ "/settings") hdrs = Ok (JObj fs) ->
  exists d,
    run (get_zone_settings u c zone_id) =
      (Ok (JObj d), [CallHttpGet (_CF_API_BASE ++ "/zones/" ++ zone_id ++ "/settings") hdrs]) /\
    NoDup (map fst d) /\
    forall k, dict_lookup d k = last_str_setting k (result_items fs).
Proof.
  intros u c zone_id hdrs fs Hh Hget.
  unfold run, get_zone_settings, bind, lift, issue, ret.
  rewrite Hh. cbv beta iota. rewrite Hget. cbv beta iota.
  unfold result_items.
  destruct (obj_get_default fs "result" (JList [])) as [| | | | items |];
    try (exists []; split; [reflexivity | split; [constructor | intros k; reflexivity]]).
  destruct (all_settings_spec items [] (NoDup_nil _)) as [Hnd Hlk].
  exists (all_settings_comprehension items []). split; [reflexivity | split; [assumption |]].
  intros k. rewrite Hlk. destruct (last_str_setting k items); reflexivity.
Qed.

Lemma get_zone_settings_total_witness :
  exists d,
    run (get_zone_settings (sample_upstream settings_body) token_config "zone-1") =
      (Ok (JObj d), [CallHttpGet (_CF_API_BASE ++ "/zones/" ++ "zone-1" ++ "/settings")
                                 [("Authorization", "Bearer tok-123")]]) /\
    NoDup (map fst d) /\
    forall k, dict_lookup d k =
      last_str_setting k (result_items
        [("result", JList [JObj [("id", JStr "cache_level"); ("value", JStr "aggressive")];
                           JObj [("id", JStr "ssl"); ("value", JStr "full")]])]).
Proof.
  apply (get_zone_settings_total (sample_upstream settings_body) token_config "zone-1"
           [("Authorization", "Bearer tok-123")]); reflexivity.
Defined.

Lemma restrict_dict_set (keys : list string) (acc : list (string * json)) (k : string) (v : json) :
  restrict_keys keys (dict_set acc k v) =
  if existsb (String.eqb k) keys then dict_set (restrict_keys keys acc) k v
  else restrict_keys keys acc.
Proof.
  unfold restrict_keys.
  induction acc as [| [k0 v0] rest IH]; simpl.
  - destruct (existsb (String.eqb k) keys); reflexivity.
  - destruct (String.eqb_spec k k0) as [-> | Hne]; simpl.
    + destruct (existsb (String.eqb k0) keys); simpl; [rewrite String.eqb_refl |]; reflexivity.
    + rewrite IH. destruct (existsb (String.eqb k0) keys) eqn:E0;
        destruct (existsb (String.eqb k) keys) eqn:E; simpl; try reflexivity.
      destruct (String.eqb_spec k k0); [congruence | reflexivity].
Qed.

Lemma comprehension_restrict `{Builtins} (keys : list string) (items : list json) :
  Forall string_id items ->
  forall acc,
  settings_comprehension keys items (restrict_keys keys acc) =
  Ok (restrict_keys keys (all_settings_comprehension items acc)).
Proof.
  induction items as [| it rest IH]; intros Hs acc; [reflexivity |].
  inversion Hs as [| ? ? Hit Hrest]; subst.
  destruct it as [| b | z | s | l | fs]; cbn [settings_comprehension all_settings_comprehension];
    try (apply IH; assumption).
  unfold string_id in Hit. unfold obj_get_default.
  destruct (obj_get fs "id") as [[| | | i | |] |] eqn:Eid; try contradiction;
    cbn [py_in_keys]; [| apply IH; assumption].
  destruct (existsb (String.eqb i) keys) eqn:Ei;
    destruct (obj_get fs "value") as [v |]; try (apply IH; assumption);
    destruct v; try (apply IH; assumption);
    rewrite <- IH by assumption; rewrite restrict_dict_set; simpl py_str; rewrite Ei;
    reflexivity.
Qed.

(** X2: when every settings item's id is a string (or absent), each
    allow-list projection ([get_cache_settings], [get_speed_settings],
    [get_security_settings] pass their allow-list as [keys]) sends the
    same request as [get_zone_settings] and returns its mapping restricted
    to the allow-listed keys, in the same order; failures are the same. *)
Theorem settings_projection_is_restriction `{Builtins} :
  forall u c zone_id keys,
  (forall hdrs fs items,
     up_http_get u (_CF_API_BASE ++ "/zones/" ++ zone_id ++ "/settings") hdrs = Ok (JObj fs) ->
     obj_get_default fs "result" (JList []) = JList items -> Forall string_id items) ->
  run (_get_zone_settings_filtered u c zone_id keys) =
  let '(r, tr) := run (get_zone_settings u c zone_id) in
  (match r with Ok (JObj d) => Ok (JObj (restrict_keys keys d)) | _ => r end, tr).
Proof.
  intros u c zone_id keys Hids.
  unfold run, _get_zone_settings_filtered, get_zone_settings, bind, lift, issue, ret, raise.
  destruct (_get_auth_headers c) as [hdrs | e]; [| reflexivity].
  cbv beta iota.
  destruct (up_http_get u (_CF_API_BASE ++ "/zones/" ++ zone_id ++ "/settings") hdrs)
    as [data | e] eqn:Eget; [| reflexivity].
  destruct data as [| | | | | fs]; try reflexivity.
  destruct (obj_get_default fs "result" (JList [])) as [| | | | items |] eqn:Er; try reflexivity.
  pose proof (comprehension_restrict keys items (Hids hdrs fs items Eget Er) []) as Hc.
  simpl in Hc. rewrite Hc. reflexivity.
Qed.

Lemma settings_projection_is_restriction_witness :
  run (_get_zone_settings_filtered (sample_upstream settings_body) token_config "zone-1" _CACHE_KEYS) =
  let '(r, tr) := run (get_zone_settings (sample_upstream settings_body) token_config "zone-1") in
  (match r with Ok (JObj d) => Ok (JObj (restrict_keys _CACHE_KEYS d)) | _ => r end, tr).
Proof.
  apply settings_projection_is_restriction.
  intros hdrs fs items Hget Hr. simpl in Hget. injection Hget as <-.
  simpl in Hr. injection Hr as <-. repeat constructor.
Defined.

Lemma ai_models_length `{Builtins} (l : list json) :
  length (ai_models_comprehension l) = length (filter is_dict l).
Proof. induction l as [| [] rest IH]; simpl; congruence. Qed.

(** X3: the results of the DNS-settings, AI-model and inference readers
    have a fixed JSON type whatever the response object holds, and none
    of them raises once the headers resolve and the response is a JSON
    object: [get_dns_settings] gives a mapping (the [result] mapping
    itself when there is one), [list_ai_models] gives a list with one
    entry per mapping of [result] (an absent or non-list result counting
    as empty), and [run_ai] gives a mapping: [{}] when [result] is absent,
    the [result] mapping itself, or, for any other result (a string, a
    number, a list, [None]), [{"response": str(result)}]. *)
Theorem http_readers_result_shape `{Builtins} :
  forall u xu c zone_id account_id model_name prompt hdrs fs,
  _get_auth_headers c = Ok hdrs ->
  (up_http_get u (_CF_API_BASE ++ "/zones/" ++ zone_id ++ "/dns_settings") hdrs = Ok (JObj fs) ->
   exists d, fst (run (get_dns_settings u c zone_id)) = Ok (JObj d) /\
     forall r, obj_get fs "result" = Some (JObj r) -> d = r) /\
  (up_http_get u (_CF_API_BASE ++ "/accounts/" ++ account_id ++ "/ai/models/search") hdrs
     = Ok (JObj fs) ->
   exists l, fst (run (list_ai_models u c account_id)) = Ok (JList l) /\
     length l = length (filter is_dict (result_items fs))) /\
  (xu_http_post xu (_CF_API_BASE ++ "/accounts/" ++ account_id ++ "/ai/run/" ++ model_name) hdrs
     (JObj [("messages", JList [JObj [("role", JStr "user"); ("content", JStr prompt)]])])
     = Ok (JObj fs) ->
   exists d, fst (xrun (run_ai xu c account_id model_name prompt)) = Ok (JObj d) /\
     (obj_get fs "result" = None -> d = []) /\
     (forall r, obj_get fs "result" = Some (JObj r) -> d = r) /\
     forall r, obj_get fs "result" = Some r -> is_dict r = false ->
       d = [("response", JStr (py_str r))]).
Proof.
  intros u xu c zone_id account_id model_name prompt hdrs fs Hh.
  repeat split; intros Hget.
  - unfold run, get_dns_settings, bind, lift, issue, ret.
    rewrite Hh. cbv beta iota. rewrite Hget. cbv beta iota. unfold obj_get_default.
    destruct (obj_get fs "result") as [[| | | | | r] |];
      [eexists; split; [reflexivity | intros r' Hr'; discriminate Hr'] .. |
       exists r; split; [reflexivity | intros r' Hr'; congruence] |
       eexists; split; [reflexivity | intros r' Hr'; discriminate Hr']].
  - unfold run, list_ai_models, bind, lift, issue, ret.
    rewrite Hh. cbv beta iota. rewrite Hget. cbv beta iota. unfold result_items.
    destruct (obj_get_default fs "result" (JList [])) as [| | | | l |];
      eexists; (split; [reflexivity |]); try reflexivity.
    apply ai_models_length.
  - unfold xrun, run_ai, xbind, xlift, xissue, xret.
    rewrite Hh. cbv beta iota. rewrite Hget. cbv beta iota. unfold obj_get_default.
    destruct (obj_get fs "result") as [r0 |] eqn:Er.
    + destruct r0 as [| | | | | r]; eexists; (split; [reflexivity |]);
        (split; [intros Hn; discriminate Hn |]);
        (split; [intros r' Hr'; injection Hr' as Hr'; try discriminate Hr'; congruence |]);
        intros r' Hr' Hd; injection Hr' as <-; try discriminate Hd; reflexivity.
    + eexists. split; [reflexivity |].
      split; [reflexivity |]. split; intros; discriminate.
Qed.

Lemma http_readers_result_shape_witness :
  (exists d, fst (run (get_dns_settings (sample_upstream (JObj [("result", JStr "x")]))
                          token_config "zone-1")) = Ok (JObj d) /\
     forall r, obj_get [("result", JStr "x")] "result" = Some (JObj r) -> d = r) /\
  (exists l, fst (run (list_ai_models (sample_upstream (JObj [("result", JStr "x")]))
                          token_config "acct-1")) = Ok (JList l) /\
     length l = length (filter is_dict (result_items [("result", JStr "x")]))) /\
  (exists d, fst (xrun (run_ai (sample_xupstream (JObj [("result", JStr "x")])) token_config
                          "acct-1" "@cf/meta/llama-3.1-8b-instruct" "hi")) = Ok (JObj d) /\
     (obj_get [("result", JStr "x")] "result" = None -> d = []) /\
     (forall r, obj_get [("result", JStr "x")] "result" = Some (JObj r) -> d = r) /\
     forall r, obj_get [("result", JStr "x")] "result" = Some r -> is_dict r = false ->
       d = [("response", JStr (py_str r))]).
Proof.
  destruct (http_readers_result_shape (sample_upstream (JObj [("result", JStr "x")]))
              (sample_xupstream (JObj [("result", JStr "x")])) token_config "zone-1" "acct-1"
              "@cf/meta/llama-3.1-8b-instruct" "hi" [("Authorization", "Bearer tok-123")]
              [("result", JStr "x")] eq_refl) as (H1 & H2 & H3).
  split; [apply H1; reflexivity | split; [apply H2; reflexivity | apply H3; reflexivity]].
Defined.

(** X4: every handler that reads a raw httpx response calls
    [response.json().get(...)]: when the body parses to JSON that is not an
    object (a list, a string, a number, null), each of them raises
    AttributeError "'<type>' object has no attribute 'get'" after its one
    request, whatever the allow-list, script name or prompt. *)
Theorem non_object_response_attribute_error `{Builtins} :
  forall u xu c zone_id account_id script_name model_name prompt start end_ hdrs data,
  _get_auth_headers c = Ok hdrs ->
  is_dict data = false ->
  let err := AttributeError ("'" ++ py_type_name data ++ "' object has no attribute 'get'") in
  (up_http_get u (_CF_API_BASE ++ "/zones/" ++ zone_id ++ "/settings") hdrs = Ok data ->
   run (get_zone_settings u c zone_id) =
     (Raise err, [CallHttpGet (_CF_API_BASE ++ "/zones/" ++ zone_id ++ "/settings") hdrs]) /\
   forall keys, run (_get_zone_settings_filtered u c zone_id keys) =
     (Raise err, [CallHttpGet (_CF_API_BASE ++ "/zones/" ++ zone_id ++ "/settings") hdrs])) /\
  (up_http_get u (_CF_API_BASE ++ "/zones/" ++ zone_id ++ "/dns_settings") hdrs = Ok data ->
   run (get_dns_settings u c zone_id) =
     (Raise err, [CallHttpGet (_CF_API_BASE ++ "/zones/" ++ zone_id ++ "/dns_settings") hdrs])) /\
  (up_http_get u (_CF_API_BASE ++ "/accounts/" ++ account_id ++ "/ai/models/search") hdrs
     = Ok data ->
   run (list_ai_models u c account_id) =
     (Raise err, [CallHttpGet (_CF_API_BASE ++ "/accounts/" ++ account_id ++ "/ai/models/search")
                    hdrs])) /\
  (up_http_get u (_CF_API_BASE ++ "/accounts/" ++ account_id ++ "/workers/scripts") hdrs
     = Ok data ->
   run (get_worker u c account_id script_name) =
     (Raise err, [CallHttpGet (_CF_API_BASE ++ "/accounts/" ++ account_id ++ "/workers/scripts")
                    hdrs])) /\
  (xu_http_post xu (_CF_API_BASE ++ "/accounts/" ++ account_id ++ "/ai/run/" ++ model_name) hdrs
     (JObj [("messages", JList [JObj [("role", JStr "user"); ("content", JStr prompt)]])])
     = Ok data ->
   xrun (run_ai xu c account_id model_name prompt) =
     (Raise err, [XHttpPost (_CF_API_BASE ++ "/accounts/" ++ account_id ++ "/ai/run/" ++ model_name)
                    hdrs (JObj [("messages", JList [JObj [("role", JStr "user");
                                                          ("content", JStr prompt)]])])])) /\
  (xu_http_post xu (_CF_API_BASE ++ "/graphql") hdrs
     (JObj [("query", JStr _ANALYTICS_QUERY);
            ("variables", JObj [("zoneTag", JStr zone_id); ("start", JStr start);
                                ("end", JStr end_)])])
     = Ok data ->
   xrun (get_zone_analytics xu c zone_id start end_) =
     (Raise err, [XHttpPost (_CF_API_BASE ++ "/graphql") hdrs
                    (JObj [("query", JStr _ANALYTICS_QUERY);
                           ("variables", JObj [("zoneTag", JStr zone_id); ("start", JStr start);
                                               ("end", JStr end_)])])])).
Proof.
  intros u xu c zone_id account_id script_name model_name prompt start end_ hdrs data Hh Hd err.
  split; [| split; [| split; [| split; [| split]]]]; intros Hget; try split; try intros keys;
  destruct data as [| | | | | fs]; try discriminate Hd;
  unfold run, xrun, get_zone_settings, _get_zone_settings_filtered, get_dns_settings,
    list_ai_models, get_worker, run_ai, get_zone_analytics, bind, lift, issue, ret, raise,
    xbind, xlift, xissue, xret;
  rewrite Hh; cbv beta iota; rewrite Hget; reflexivity.
Qed.

Lemma non_object_response_attribute_error_witness :
  run (get_worker (sample_upstream (JList [])) token_config "acct-1" "my-worker")
    = (Raise (AttributeError "'list' object has no attribute 'get'"),
       [CallHttpGet (_CF_API_BASE ++ "/accounts/acct-1/workers/scripts")
          [("Authorization", "Bearer tok-123")]]).
Proof.
  apply (non_object_response_attribute_error (sample_upstream (JList []))
           (sample_xupstream (JList [])) token_config "zone-1" "acct-1" "my-worker"
           "@cf/meta/llama-3.1-8b-instruct" "hi" "2026-10-17T00:00:00Z" "2026-10-18T00:00:00Z"
           [("Authorization", "Bearer tok-123")] (JList []) eq_refl eq_refl).
  reflexivity.
Defined.

(** X5: [get_zone_analytics] sends one POST to the GraphQL endpoint
    carrying the analytics query and the variables [zoneTag] (the caller's
    zone id), [start] and [end], and its result is computed from the
    response alone. For a JSON-object response, that result is [{}] or the
    aggregation of the hourly groups of the FIRST entry of
    [data.viewer.zones]; later zones are never read, and no exception other
    than the aggregator's can arise. *)
Theorem get_zone_analytics_first_zone `{Builtins} :
  forall xu c zone_id start end_ hdrs data,
  _get_auth_headers c = Ok hdrs ->
  xu_http_post xu (_CF_API_BASE ++ "/graphql") hdrs
    (JObj [("query", JStr _ANALYTICS_QUERY);
           ("variables", JObj [("zoneTag", JStr zone_id); ("start", JStr start);
                               ("end", JStr end_)])]) = Ok data ->
  xrun (get_zone_analytics xu c zone_id start end_) =
    (analytics_of_response data,
     [XHttpPost (_CF_API_BASE ++ "/graphql") hdrs
        (JObj [("query", JStr _ANALYTICS_QUERY);
               ("variables", JObj [("zoneTag", JStr zone_id); ("start", JStr start);
                                   ("end", JStr end_)])])]) /\
  forall fs, data = JObj fs ->
    analytics_of_response data = Ok (JObj []) \/
    exists gql_data viewer f rest groups,
      obj_get_default fs "data" (JObj []) = JObj gql_data /\
      obj_get_default gql_data "viewer" (JObj []) = JObj viewer /\
      obj_get_default viewer "zones" (JList []) = JList (JObj f :: rest) /\
      obj_get_default f "httpRequests1hGroups" (JList []) = JList groups /\
      analytics_of_response data = _aggregate_analytics groups.
Proof.
  intros xu c zone_id start end_ hdrs data Hh Hpost. split.
  - unfold xrun, get_zone_analytics, xbind, xlift, xissue.
    rewrite Hh. cbv beta iota. rewrite Hpost. reflexivity.
  - intros fs ->. unfold analytics_of_response.
    destruct (obj_get_default fs "data" (JObj [])) as [| | | | | gql_data] eqn:E1; [left; reflexivity .. |].
    destruct (obj_get_default gql_data "viewer" (JObj [])) as [| | | | | viewer] eqn:E2;
      [left; reflexivity .. |].
    destruct (obj_get_default viewer "zones" (JList [])) as [| | | | [| first rest] |] eqn:E3;
      [left; reflexivity .. | | left; reflexivity].
    destruct first as [| | | | | f]; [left; reflexivity .. |].
    destruct (obj_get_default f "httpRequests1hGroups" (JList [])) as [| | | | groups |] eqn:E4;
      [left; reflexivity .. | | left; reflexivity].
    right. exists gql_data, viewer, f, rest, groups. repeat split; assumption.
Qed.

Lemma get_zone_analytics_first_zone_witness :
  let body := JObj [("data", JObj [("viewer", JObj [("zones", JList [
                JObj [("httpRequests1hGroups", JList [
                  JObj [("sum", JObj [("requests", JInt 600); ("cachedRequests", JInt 500)])]])];
                JObj [("httpRequests1hGroups", JList [
                  JObj [("sum", JObj [("requests", JInt 7)])]])]])])])] in
  fst (xrun (get_zone_analytics (sample_xupstream body) token_config "zone-1"
               "2026-10-17T00:00:00Z" "2026-10-18T00:00:00Z"))
  = analytics_of_response body.
Proof.
  intros body.
  rewrite (proj1 (get_zone_analytics_first_zone (sample_xupstream body) token_config "zone-1"
                    "2026-10-17T00:00:00Z" "2026-10-18T00:00:00Z"
                    [("Authorization", "Bearer tok-123")] body eq_refl eq_refl)).
  reflexivity.
Defined.

Lemma add_bucket_shift `{Builtins} (t : totals) (s : list (string * json)) :
  add_bucket t s = obind (add_bucket zero_totals s) (fun d => Ok (add_totals t d)).
Proof.
  unfold add_bucket.
  destruct (py_int (obj_get_default s "requests" (JInt 0))); [| reflexivity]; simpl.
  destruct (py_int (obj_get_default s "cachedRequests" (JInt 0))); [| reflexivity]; simpl.
  destruct (py_int (obj_get_default s "bytes" (JInt 0))); [| reflexivity]; simpl.
  destruct (py_int (obj_get_default s "cachedBytes" (JInt 0))); [| reflexivity]; simpl.
  destruct (py_int (obj_get_default s "threats" (JInt 0))); [| reflexivity]; simpl.
  destruct (py_int (obj_get_default s "pageViews" (JInt 0))); [| reflexivity]; simpl.
  reflexivity.
Qed.

Lemma add_totals_assoc (a b d : totals) :
  add_totals (add_totals a b) d = add_totals a (add_totals b d).
Proof. destruct a, b, d; unfold add_totals; simpl; f_equal; lia. Qed.

Lemma aggregate_loop_shift `{Builtins} (groups : list json) :
  forall t, aggregate_loop groups t =
            obind (aggregate_loop groups zero_totals) (fun d => Ok (add_totals t d)).
Proof.
  induction groups as [| g rest IH]; intros t.
  - simpl. destruct t; unfold add_totals; simpl; repeat rewrite Z.add_0_r; reflexivity.
  - destruct g as [| | | | | gr]; simpl; try apply IH.
    destruct (obj_get_default gr "sum" (JObj [])) as [| | | | | s]; try apply IH.
    rewrite (add_bucket_shift t s).
    destruct (add_bucket zero_totals s) as [d1 | e]; simpl; [| reflexivity].
    rewrite (IH (add_totals t d1)), (IH d1).
    destruct (aggregate_loop rest zero_totals) as [d2 | e]; simpl; [| reflexivity].
    rewrite add_totals_assoc. reflexivity.
Qed.

Lemma aggregate_loop_app `{Builtins} (g1 g2 : list json) :
  forall t, aggregate_loop (g1 ++ g2) t = obind (aggregate_loop g1 t) (aggregate_loop g2).
Proof.
  induction g1 as [| g rest IH]; intros t; [reflexivity |].
  destruct g as [| | | | | gr]; simpl; try apply IH.
  destruct (obj_get_default gr "sum" (JObj [])) as [| | | | | s]; try apply IH.
  destruct (add_bucket t s); simpl; [apply IH | reflexivity].
Qed.

(** X6: aggregation is additive over hours: the aggregate of a
    concatenation of two bucket lists is built from the field-wise sum of
    the two lists' totals; when a list fails, the first failure (the first
    list's, else the second's) is raised. *)
Theorem aggregate_analytics_concat `{Builtins} :
  forall g1 g2,
  _aggregate_analytics (g1 ++ g2) =
  obind (aggregate_loop g1 zero_totals) (fun t1 =>
  obind (aggregate_loop g2 zero_totals) (fun t2 =>
  Ok (summary_json (add_totals t1 t2)))).
Proof.
  intros g1 g2. unfold _aggregate_analytics.
  rewrite aggregate_loop_app.
  destruct (aggregate_loop g1 zero_totals) as [t1 | e]; simpl; [| reflexivity].
  rewrite aggregate_loop_shift.
  destruct (aggregate_loop g2 zero_totals); reflexivity.
Qed.

Lemma find_script_skip (script_name : string) (pre post : list json) :
  Forall (fun it => match it with
                    | JObj fs => obj_get fs "id" <> Some (JStr script_name)
                    | _ => True
                    end) pre ->
  find_script script_name (pre ++ post) = find_script script_name post.
Proof.
  induction pre as [| it rest IH]; intros Hf; [reflexivity |].
  inversion Hf as [| ? ? Hit Hrest]; subst.
  destruct it as [| | | | | fs]; simpl; try (apply IH; assumption).
  destruct (obj_get fs "id") as [[| | | s | |] |]; try (apply IH; assumption).
  destruct (String.eqb_spec s script_name) as [-> | ]; [contradiction | apply IH; assumption].
Qed.

(** X7: when the script listing holds an entry whose id is the requested
    name, [get_worker] sends only the listing request and returns the
    metadata of the FIRST such entry: its ["id"] is the requested name and
    each of ["created_on"], ["modified_on"], ["etag"] is [str] of the entry's
    field, [""] when the field is absent. *)
Theorem get_worker_first_match `{Builtins} :
  forall u c account_id script_name hdrs fs pre s post,
  _get_auth_headers c = Ok hdrs ->
  up_http_get u (_CF_API_BASE ++ "/accounts/" ++ account_id ++ "/workers/scripts") hdrs
    = Ok (JObj fs) ->
  obj_get_default fs "result" (JList []) = JList (pre ++ JObj s :: post) ->
  obj_get s "id" = Some (JStr script_name) ->
  Forall (fun it => match it with
                    | JObj fs' => obj_get fs' "id" <> Some (JStr script_name)
                    | _ => True
                    end) pre ->
  run (get_worker u c account_id script_name) =
    (Ok (JObj [("id", JStr script_name);
               ("created_on", JStr (py_str (obj_get_default s "created_on" (JStr ""))));
               ("modified_on", JStr (py_str (obj_get_default s "modified_on" (JStr ""))));
               ("etag", JStr (py_str (obj_get_default s "etag" (JStr ""))))]),
     [CallHttpGet (_CF_API_BASE ++ "/accounts/" ++ account_id ++ "/workers/scripts") hdrs]).
Proof.
  intros u c account_id script_name hdrs fs pre s post Hh Hget Hres Hid Hpre.
  unfold run, get_worker, bind, lift, issue, ret.
  rewrite Hh. cbv beta iota. rewrite Hget. cbv beta iota. rewrite Hres.
  rewrite (find_script_skip script_name pre (JObj s :: post) Hpre). simpl.
  rewrite Hid, String.eqb_refl. unfold obj_get_default at 1. rewrite Hid. reflexivity.
Qed.

Lemma get_worker_first_match_witness :
  run (get_worker (sample_upstream scripts_body) token_config "acct-1" "api-worker") =
    (Ok (JObj [("id", JStr "api-worker");
               ("created_on", JStr (py_str (obj_get_default [("id", JStr "api-worker"); ("etag", JStr "e2")] "created_on" (JStr ""))));
               ("modified_on", JStr (py_str (obj_get_default [("id", JStr "api-worker"); ("etag", JStr "e2")] "modified_on" (JStr ""))));
               ("etag", JStr (py_str (obj_get_default [("id", JStr "api-worker"); ("etag", JStr "e2")] "etag" (JStr ""))))]),
     [CallHttpGet (_CF_API_BASE ++ "/accounts/" ++ "acct-1" ++ "/workers/scripts")
                  [("Authorization", "Bearer tok-123")]]).
Proof.
  apply (get_worker_first_match (sample_upstream scripts_body) token_config "acct-1" "api-worker"
           [("Authorization", "Bearer tok-123")]
           [("result", JList [JObj [("id", JStr "my-worker"); ("etag", JStr "e1")];
                              JObj [("id", JStr "api-worker"); ("etag", JStr "e2")]])]
           [JObj [("id", JStr "my-worker"); ("etag", JStr "e1")]]
           [("id", JStr "api-worker"); ("etag", JStr "e2")] []).
  - reflexivity.
  - reflexivity.
  - reflexivity.
  - reflexivity.
  - constructor; [simpl; discriminate | constructor].
Defined.

(** X8: a NotFoundError never reaches the caller as the SDK's text in a
    tool that handles it: its message is a fixed text around one of the
    caller's own string arguments (the zone, record, custom-hostname id or
    script name). The four tools without such a clause (list_zones,
    list_ai_models, run_ai, list_workers) return the exception's text. *)
Theorem not_found_message_names_argument :
  forall t s,
  (In (fst (tool_method t)) ["list_zones"; "list_ai_models"; "run_ai"; "list_workers"] ->
   message (tool_envelope t (Raise (NotFoundError s))) = s) /\
  (~ In (fst (tool_method t)) ["list_zones"; "list_ai_models"; "run_ai"; "list_workers"] ->
   exists a p q,
     (forall s', message (tool_envelope t (Raise (NotFoundError s'))) = p ++ a ++ q) /\
     In a (tool_string_args t)).
Proof.
  intros t s. split; intros Hin.
  - destruct t; try reflexivity;
      simpl in Hin; exfalso; intuition discriminate.
  - destruct t; try (exfalso; apply Hin; simpl; tauto);
      do 3 eexists; (split; [intros s'; reflexivity | simpl; tauto]).
Qed.

Lemma not_found_message_names_argument_witness :
  exists a p q,
    (forall s', message (tool_envelope (TGetWorker "acct-1" "ghost-worker")
                          (Raise (NotFoundError s'))) = p ++ a ++ q) /\
    In a (tool_string_args (TGetWorker "acct-1" "ghost-worker")).
Proof.
  apply (proj2 (not_found_message_names_argument (TGetWorker "acct-1" "ghost-worker") "")).
  simpl. intros [H | [H | [H | [H | []]]]]; discriminate H.
Defined.

(** X9: an APIConnectionError's own text always reaches the caller: the
    four tools with an [except cloudflare.APIConnectionError] clause
    (list_zones, list_ai_models, run_ai, list_workers) prefix it with
    "连接 Cloudflare API 失败: ", every other tool returns it as is. *)
Theorem connection_error_message :
  forall t s,
  message (tool_envelope t (Raise (APIConnectionError s))) =
  (if existsb (String.eqb (fst (tool_method t)))
        ["list_zones"; "list_ai_models"; "run_ai"; "list_workers"]
   then "连接 Cloudflare API 失败: " else "") ++ s.
Proof. intros [] s; reflexivity. Qed.

(** X10: a PermissionDeniedError gets a fixed message only in
    purge_cache ("无权限清除缓存，请检查 API Token 的 Cache Purge 权限");
    every other tool returns the exception's text. *)
Theorem permission_denied_message :
  forall t s,
  message (tool_envelope t (Raise (PermissionDeniedError s))) =
  match t with
  | TPurgeCache _ _ _ _ => "无权限清除缓存，请检查 API Token 的 Cache Purge 权限"
  | _ => s
  end.
Proof. intros [] s; reflexivity. Qed.

Lemma no_credentials_fail (c : config) :
  cf_api_token c = "" -> (cf_api_key c = "" \/ cf_api_email c = "") ->
  _get_client c = Raise (ValueError config_error_msg) /\
  _get_auth_headers c = Raise (ValueError config_error_msg).
Proof.
  intros Ht Hke. unfold _get_client, _get_auth_headers. rewrite Ht. simpl.
  destruct Hke as [Hk | He]; [rewrite Hk | rewrite He; rewrite andb_false_r]; split; reflexivity.
Qed.

(** X11: with no token and not both of key and email configured, none of
    the fourteen handlers modelled here (update_dns_record, purge_cache,
    get_zone_settings, _get_zone_settings_filtered, get_dns_settings,
    list_ai_models, get_worker, get_email_routing, list_custom_hostnames,
    create_dns_record, delete_dns_record, create_custom_hostname, run_ai,
    get_zone_analytics) sends any request: each raises the configuration
    ValueError first. No tool has a clause for ValueError, so every tool
    other than the three custom-hostname tools (which fail at argument
    binding whatever the credentials) returns that configuration message
    when its handler raises it. *)
Theorem missing_credentials_no_request `{Builtins} :
  forall u xu c zone_id record_id content ttl proxied files tags purge_everything keys
         account_id script_name model_name prompt start end_ record_type name proxied_b hostname,
  cf_api_token c = "" -> (cf_api_key c = "" \/ cf_api_email c = "") ->
  let fail := Raise (ValueError config_error_msg) in
  run (update_dns_record u c zone_id record_id content ttl proxied) = (fail, []) /\
  run (purge_cache u c zone_id files tags purge_everything) = (fail, []) /\
  run (get_zone_settings u c zone_id) = (fail, []) /\
  run (_get_zone_settings_filtered u c zone_id keys) = (fail, []) /\
  run (get_dns_settings u c zone_id) = (fail, []) /\
  run (list_ai_models u c account_id) = (fail, []) /\
  run (get_worker u c account_id script_name) = (fail, []) /\
  run (get_email_routing u c zone_id) = (fail, []) /\
  run (list_custom_hostnames u c zone_id) = (fail, []) /\
  xrun (create_dns_record xu c zone_id record_type name content ttl proxied_b) = (fail, []) /\
  xrun (delete_dns_record xu c zone_id record_id) = (fail, []) /\
  xrun (create_custom_hostname xu c zone_id hostname) = (fail, []) /\
  xrun (run_ai xu c account_id model_name prompt) = (fail, []) /\
  xrun (get_zone_analytics xu c zone_id start end_) = (fail, []) /\
  forall t, match t with
            | TCreateCustomHostname _ _ _ | TUpdateCustomHostname _ _ _
            | TDeleteCustomHostname _ _ => True
            | _ => invoke_tool t fail = _error config_error_msg
            end.
Proof.
  intros until hostname. intros Ht Hke fail.
  destruct (no_credentials_fail c Ht Hke) as [Hc Hh].
  unfold fail, run, xrun, update_dns_record, purge_cache, get_zone_settings,
    _get_zone_settings_filtered, get_dns_settings, list_ai_models, get_worker,
    get_email_routing, list_custom_hostnames, create_dns_record, delete_dns_record,
    create_custom_hostname, run_ai, get_zone_analytics, bind, lift, xbind, xlift.
  rewrite Hc, Hh.
  repeat split; intros []; exact I || reflexivity.
Qed.

Lemma missing_credentials_no_request_witness :
  run (get_worker (sample_upstream scripts_body) (mkConfig "" "global-key" "") "acct-1" "my-worker") =
    (Raise (ValueError config_error_msg), []).
Proof.
  exact (proj1 (proj2 (proj2 (proj2 (proj2 (proj2 (proj2
    (missing_credentials_no_request (sample_upstream scripts_body)
       (sample_xupstream JNull) (mkConfig "" "global-key" "") "zone-1" "rec-1"
       "9.9.9.9" 1 None "" "" true _CACHE_KEYS "acct-1" "my-worker"
       "@cf/meta/llama-3.1-8b-instruct" "hi" "2026-10-17T00:00:00Z"
       "2026-10-18T00:00:00Z" "A" "www.example.com" false "app.partner.com"
       eq_refl (or_intror eq_refl))))))))).
Defined.

(** X12: apart from the three custom-hostname tools, every tool names a
    method that [CloudflareHandler] defines and passes it a number of
    positional arguments it accepts, so attribute lookup and argument
    binding never fail and the tool's envelope is the one of the method's
    own outcome. *)
Theorem tool_arguments_bind :
  forall t body,
    match t with
    | TCreateCustomHostname _ _ _ | TUpdateCustomHostname _ _ _
    | TDeleteCustomHostname _ _ => True
    | _ => invoke_tool t body = tool_envelope t body
    end.
Proof.
  intros t body. destruct t; reflexivity.
Qed.

(** X13: when the record to update does not exist, [update_dns_record]
    stops after the read: the only request is the get of the record, no
    edit is sent, and the tool answers with the message naming the record
    id it was given. *)
Theorem update_dns_record_missing_record :
  forall u c cl zone_id record_id content ttl proxied s,
    _get_client c = Ok cl ->
    up_dns_records_get u cl record_id zone_id = Raise (NotFoundError s) ->
    run (update_dns_record u c zone_id record_id content ttl proxied) =
      (Raise (NotFoundError s), [CallDnsRecordsGet record_id zone_id]) /\
    invoke_tool (TUpdateDnsRecord zone_id record_id content ttl proxied)
      (fst (run (update_dns_record u c zone_id record_id content ttl proxied))) =
      _error ("DNS 记录 " ++ record_id ++ " 不存在").
Proof.
  intros u c cl zone_id record_id content ttl proxied s Hc Hg.
  assert (Hrun : run (update_dns_record u c zone_id record_id content ttl proxied) =
                 (Raise (NotFoundError s), [CallDnsRecordsGet record_id zone_id])).
  { unfold run, update_dns_record, bind, lift, issue. rewrite Hc, Hg. reflexivity. }
  split; [exact Hrun |]. rewrite Hrun. reflexivity.
Qed.

Lemma update_dns_record_missing_record_witness :
  run (update_dns_record (sample_upstream JNull) token_config "zone-1" "rec-404"
         "9.9.9.9" 300 None) =
    (Raise (NotFoundError "Not found"), [CallDnsRecordsGet "rec-404" "zone-1"]).
Proof.
  exact (proj1 (update_dns_record_missing_record (sample_upstream JNull) token_config
                  (TokenClient "tok-123") "zone-1" "rec-404" "9.9.9.9" 300 None "Not found"
                  eq_refl eq_refl)).
Defined.

(** X14: [delete_dns_record] sends exactly one delete request for the
    given record and zone and returns [True]; its tool reports
    [{"deleted": true, "record_id": <id>}] on success and the message
    naming the record id when the upstream raises [NotFoundError]. *)
Theorem delete_dns_record_tool :
  forall xu c cl zone_id record_id,
    _get_client c = Ok cl ->
    snd (xrun (delete_dns_record xu c zone_id record_id)) = [XDnsRecordsDelete record_id zone_id] /\
    (xu_dns_records_delete xu cl record_id zone_id = Ok tt ->
     invoke_tool (TDeleteDnsRecord zone_id record_id)
       (fst (xrun (delete_dns_record xu c zone_id record_id))) =
     _success (JObj [("deleted", JBool true); ("record_id", JStr record_id)])) /\
    (forall s, xu_dns_records_delete xu cl record_id zone_id = Raise (NotFoundError s) ->
     invoke_tool (TDeleteDnsRecord zone_id record_id)
       (fst (xrun (delete_dns_record xu c zone_id record_id))) =
     _error ("DNS 记录 " ++ record_id ++ " 不存在")).
Proof.
  intros xu c cl zone_id record_id Hc.
  unfold xrun, delete_dns_record, xbind, xlift, xissue, xret. rewrite Hc.
  split; [| split].
  - destruct (xu_dns_records_delete xu cl record_id zone_id) as [[] | e]; reflexivity.
  - intros Hd. rewrite Hd. reflexivity.
  - intros s Hd. rewrite Hd. reflexivity.
Qed.

Lemma delete_dns_record_tool_witness :
  snd (xrun (delete_dns_record (sample_xupstream JNull) token_config "zone-1" "rec-1")) =
    [XDnsRecordsDelete "rec-1" "zone-1"].
Proof.
  exact (proj1 (delete_dns_record_tool (sample_xupstream JNull) token_config
                  (TokenClient "tok-123") "zone-1" "rec-1" eq_refl)).
Defined.

Lemma lstrip_all_space (s : string) :
  Forall (fun ch => py_isspace ch = true) (list_ascii_of_string s) -> lstrip s = "".
Proof.
  induction s as [| ch rest IH]; intros Hs; [reflexivity |].
  inversion Hs as [| ? ? Hch Hrest]; subst. simpl. rewrite Hch. exact (IH Hrest).
Qed.

Lemma split_comma_blank (s : string) :
  blank_list s ->
  Forall (fun p => Forall (fun ch => py_isspace ch = true) (list_ascii_of_string p))
         (py_split_comma s).
Proof.
  unfold blank_list. induction s as [| ch rest IH]; intros Hs.
  - repeat constructor.
  - inversion Hs as [| ? ? Hch Hrest]; subst. specialize (IH Hrest). simpl.
    destruct (Ascii.eqb ch ","%char) eqn:E.
    + constructor; [constructor | exact IH].
    + assert (Hsp : py_isspace ch = true).
      { destruct Hch as [Hc | Hc]; [subst; discriminate E | exact Hc]. }
      destruct (py_split_comma rest) as [| p ps] eqn:Hp.
      * repeat constructor. exact Hsp.
      * inversion IH as [| ? ? Hp1 Hps]; subst.
        constructor; [constructor; [exact Hsp | exact Hp1] | exact Hps].
Qed.

Lemma strip_blank_pieces (l : list string) :
  Forall (fun p => Forall (fun ch => py_isspace ch = true) (list_ascii_of_string p)) l ->
  filter truthy (map ascii_strip l) = [].
Proof.
  induction l as [| p ps IH]; intros Hl; [reflexivity |].
  inversion Hl as [| ? ? Hp Hps]; subst. simpl.
  unfold ascii_strip. rewrite (lstrip_all_space p Hp). exact (IH Hps).
Qed.

(** X15: a [files] argument made only of commas and ASCII whitespace
    (tab, LF, VT, FF, CR, 0x1c-0x1f, space) is still a non-empty string,
    so [purge_cache] takes the files branch (whatever [tags] is) and,
    since [str.strip()] empties every piece, sends a purge request with an
    empty file list. *)
Theorem purge_cache_blank_files :
  forall u c cl zone_id files tags,
    _get_client c = Ok cl ->
    files <> "" ->
    blank_list files ->
    snd (run (purge_cache u c zone_id files tags false)) =
      [CallCachePurge zone_id (PurgeFiles [])].
Proof.
  intros u c cl zone_id files tags Hc Hne Hb.
  assert (Ht : truthy files = true).
  { unfold truthy. apply negb_true_iff. apply String.eqb_neq. exact Hne. }
  assert (Hs : split_strip files = []).
  { unfold split_strip. apply strip_blank_pieces, split_comma_blank, Hb. }
  unfold run, purge_cache, bind, lift, issue, ret. rewrite Hc. cbv beta iota.
  rewrite Ht, Hs.
  destruct (up_cache_purge u cl zone_id (PurgeFiles [])); reflexivity.
Qed.

Lemma purge_cache_blank_files_witness :
  snd (run (purge_cache (sample_upstream JNull) token_config "zone-1" " , , " "" false)) =
    [CallCachePurge "zone-1" (PurgeFiles [])].
Proof.
  apply (purge_cache_blank_files (sample_upstream JNull) token_config (TokenClient "tok-123")
           "zone-1" " , , " "").
  - reflexivity.
  - discriminate.
  - unfold blank_list. simpl.
    repeat constructor; (left; reflexivity) || (right; reflexivity).
Defined.

(** X16: [DnsMixin]'s create and update, hosted by a class whose
    [_get_client] is [CloudflareHandler]'s, send the same requests and
    return the same results as [CloudflareHandler]'s own methods; hosted
    by [CloudflareBase]'s stub they raise its [NotImplementedError]
    before any request. *)
Theorem dns_mixin_matches_handler :
  forall u xu c zone_id record_id record_type name content ttl proxied proxied_opt,
    dns_mixin_update_dns_record u (_get_client c) zone_id record_id
      (mkUpdateParams content ttl proxied_opt) =
      update_dns_record u c zone_id record_id content ttl proxied_opt /\
    dns_mixin_create_dns_record xu (_get_client c) zone_id
      (mkCreateParams record_type name content ttl proxied) =
      create_dns_record xu c zone_id record_type name content ttl proxied /\
    run (dns_mixin_update_dns_record u stub_get_client zone_id record_id
           (mkUpdateParams content ttl proxied_opt)) = (Raise (OtherError ""), []) /\
    xrun (dns_mixin_create_dns_record xu stub_get_client zone_id
            (mkCreateParams record_type name content ttl proxied)) = (Raise (OtherError ""), []).
Proof.
  intros. repeat split.
Qed.

(** X17: [SslMixin]'s create and update send an ssl configuration with
    [settings.min_tls_version] set to the requested version, as one
    request each; [CloudflareHandler.create_custom_hostname] sends an ssl
    configuration with the same method and type but no [settings] at
    all, so a minimum TLS version never reaches the upstream through it. *)
Theorem ssl_min_tls_version_requests :
  forall xu c cl zone_id hostname custom_hostname_id v,
    _get_client c = Ok cl ->
    (exists ssl settings,
        snd (xrun (ssl_mixin_create_custom_hostname xu (_get_client c) zone_id hostname v)) =
          [XCustomHostnamesCreate zone_id hostname (JObj ssl)] /\
        snd (xrun (ssl_mixin_update_custom_hostname xu (_get_client c) zone_id
                     custom_hostname_id v)) =
          [XCustomHostnamesEdit custom_hostname_id zone_id (JObj ssl)] /\
        obj_get ssl "method" = Some (JStr "http") /\ obj_get ssl "type" = Some (JStr "dv") /\
        obj_get ssl "settings" = Some (JObj settings) /\
        obj_get settings "min_tls_version" = Some (JStr v)) /\
    (exists ssl,
        snd (xrun (create_custom_hostname xu c zone_id hostname)) =
          [XCustomHostnamesCreate zone_id hostname (JObj ssl)] /\
        obj_get ssl "method" = Some (JStr "http") /\ obj_get ssl "type" = Some (JStr "dv") /\
        obj_get ssl "settings" = None).
Proof.
  intros xu c cl zone_id hostname custom_hostname_id v Hc.
  unfold xrun, ssl_mixin_create_custom_hostname, ssl_mixin_update_custom_hostname,
    create_custom_hostname, xbind, xlift, xissue, xret. rewrite Hc.
  split.
  - eexists. eexists. split; [| split; [| split; [| split; [| split]]]].
    + destruct (xu_custom_hostnames_create _ _ _ _ _); reflexivity.
    + destruct (xu_custom_hostnames_edit _ _ _ _ _); reflexivity.
    + reflexivity.
    + reflexivity.
    + reflexivity.
    + reflexivity.
  - eexists. split; [| split; [| split]].
    + destruct (xu_custom_hostnames_create _ _ _ _ _); reflexivity.
    + reflexivity.
    + reflexivity.
    + reflexivity.
Qed.

Lemma ssl_min_tls_version_requests_witness :
  snd (xrun (create_custom_hostname (sample_xupstream JNull) token_config "zone-1"
               "app.partner.com")) =
    [XCustomHostnamesCreate "zone-1" "app.partner.com"
       (JObj [("method", JStr "http"); ("type", JStr "dv")])].
Proof.
  destruct (proj2 (ssl_min_tls_version_requests (sample_xupstream JNull) token_config
                     (TokenClient "tok-123") "zone-1" "app.partner.com" "ch-1" "1.2" eq_refl))
    as [ssl [Htr _]].
  rewrite Htr. vm_compute in Htr. injection Htr as Hssl. rewrite Hssl. reflexivity.
Defined.
